(** * Data source HTTP transport provisioning (package [models])

    A shallow embedding of the transport cache, the TLS configuration
    builder, the custom-header scan and the decryption cache of
    [ds.GetHttpTransport] and friends, followed by the properties the
    design document states about them.

    Conventions.
    - Go maps are [gmap]s; indexing a Go map at a missing key gives the
      zero value, written out by [go_index].
    - [time.Time] values are instants ([Z]); [Time.Equal] compares instants.
    - Pointers ([*dataSourceTransport], [*http.Transport]) are indices into
      typed arenas kept in the [World]; allocation appends to the arena.
    - The two package-level caches [ptc] and [dsDecryptionCache] are fields
      of the [World].  A function that touches a cache holds its lock for
      its whole body ([Lock] / [defer Unlock]), so a call is one atomic
      state transformer.
    - The [World] also records the calls made to the secret store, so
      that "the store was (not) consulted" can be stated.
    - A Go [panic] is an outcome of its own, distinct from a returned
      [error] value; state changes made before the panic persist. *)

From stdpp Require Import gmap strings list fin_maps pretty.
From Stdlib Require Import ZArith Lia.

Local Open Scope Z_scope.

(** ** JSON configuration (simplejson) *)

(** Modelled from the spec: the [simplejson] package (the type of
    [ds.JsonData]), whose source is missing here.  The resource
    carries "a plain configuration mapping (string keys to arbitrary
    JSON-like values)"; a header-name entry may be "absent or empty".
    [JNumber n] is a number written as the integer literal [n], of any
    size.  [JOther] stands for arrays and nested objects, and for numbers
    not written as an integer literal ([1.5], [45.0], [1e2]); none of the
    accessors used here can read these. *)
Inductive jvalue : Type :=
  | JNull
  | JBool (b : bool)
  | JNumber (n : Z)
  | JString (s : string)
  | JOther.

Inductive Json : Type :=
  | JObject (m : gmap string jvalue)
  | JValue (v : jvalue).

(** [j.Get(key)]: the member when [j] is an object that has it, a JSON
    wrapping nil otherwise. *)
Definition Get (j : Json) (key : string) : Json :=
  match j with
  | JObject m =>
      match m !! key with
      | Some v => JValue v
      | None => JValue JNull
      end
  | JValue _ => JValue JNull
  end.

(** [j.MustString()]: the string, or the default [""]. *)
Definition MustString (j : Json) : string :=
  match j with
  | JValue (JString s) => s
  | _ => ""
  end.

(** [j.MustBool()] and [j.MustBool(false)]: the boolean, or [false]. *)
Definition MustBool (j : Json) : bool :=
  match j with
  | JValue (JBool b) => b
  | _ => false
  end.

(** [j.MustInt()]: the number when it is an integer literal that fits a
    signed 64-bit integer, and the default [0] otherwise (no number, a
    number with a fraction or an exponent, or one out of range). *)
Definition MustInt (j : Json) : Z :=
  match j with
  | JValue (JNumber n) =>
      if (- 2 ^ 63 <=? n) && (n <? 2 ^ 63) then n else 0
  | _ => 0
  end.

(** ** Go values *)

(** [m[key]] on a [map[string]string]: the zero value when missing. *)
Definition go_index (m : gmap string string) (key : string) : string :=
  default "" (m !! key).

(** A value of Go's [error] interface, identified by its message. *)
Inductive error : Type :=
  | errors_New (msg : string).

(** The value carried by a [panic]. *)
Inductive panic_value : Type :=
  | UnsupportedDatasource (dsType : string)
  | NilPointerDereference.

(** How a call ends: it returns, or it panics. *)
Inductive outcome (A : Type) : Type :=
  | Returned (a : A)
  | Panicked (v : panic_value).
Arguments Returned {A} a.
Arguments Panicked {A} v.

(** Signed 64-bit wrap-around ([int], [int64], [time.Duration]). *)
Definition wrap64 (z : Z) : Z :=
  (z + 2 ^ 63) mod 2 ^ 64 - 2 ^ 63.

Definition time_Second : Z := 1000000000.

(** [t.Equal(u)] *)
Definition time_Equal (t u : Z) : bool := t =? u.

(** ** TLS and transport records *)

Inductive RenegotiationSupport : Type :=
  | RenegotiateNever
  | RenegotiateOnceAsClient
  | RenegotiateFreelyAsClient.

(** Process-wide settings (package [setting]). *)
Record Settings : Type := {
  DataProxyTimeout : Z;
  DataProxyKeepAlive : Z;
  DataProxyTLSHandshakeTimeout : Z;
  DataProxyExpectContinueTimeout : Z;
  DataProxyMaxIdleConns : Z;
  DataProxyIdleConnTimeout : Z;
  SigV4AuthEnabled : bool
}.

(** ** External collaborators

    - [SecureJson], [Decrypt]: the encrypted blob and the secret store's
      decrypt capability ([ds.SecureJsonData.Decrypt()]); a decryption
      that fails ends the process and is outside this model.
    - [Certificate], [parsePEMCertificates], [X509KeyPair]: [crypto/x509]
      and [crypto/tls]; the PEM parser behind
      [CertPool.AppendCertsFromPEM] gives the certificates it could parse.
    - [DS_ES], [DS_ES_OPEN_DISTRO], [DS_PROMETHEUS]: the data source type
      constants of this package.
    - [setting]: the values of the package-level variables of [setting]. *)
Class Externals : Type := {
  SecureJson : Type;
  Decrypt : SecureJson -> gmap string string;
  Certificate : Type;
  parsePEMCertificates : string -> list Certificate;
  X509KeyPair : string -> string -> Certificate + error;
  DS_ES : string;
  DS_ES_OPEN_DISTRO : string;
  DS_PROMETHEUS : string;
  setting : Settings
}.

Section Models.

Context {ext : Externals}.

(** *** Data model *)

Record DataSource : Type := {
  Id : Z;
  Name : string;
  Type_ : string;
  JsonData : option Json;
  SecureJsonData : SecureJson;
  Updated : Z
}.

Definition CertPool : Type := list Certificate.

(** [x509.NewCertPool()] *)
Definition NewCertPool : CertPool := [].

(** [s.AppendCertsFromPEM(pem)]: appends the certificates found and
    reports whether any was parsed. *)
Definition AppendCertsFromPEM (s : CertPool) (pem : string) : CertPool * bool :=
  let found := parsePEMCertificates pem in
  (s ++ found, match found with [] => false | _ :: _ => true end).

Record tls_Config : Type := {
  InsecureSkipVerify : bool;
  ServerName : string;
  RootCAs : option CertPool;
  Certificates : list Certificate;
  Renegotiation : RenegotiationSupport
}.

Record http_Transport : Type := {
  TLSClientConfig : tls_Config;
  DialTimeout : Z;
  DialKeepAlive : Z;
  TLSHandshakeTimeout : Z;
  ExpectContinueTimeout : Z;
  MaxIdleConns : Z;
  IdleConnTimeout : Z
}.

Record sigv4_Config : Type := {
  Service : string;
  AccessKey : string;
  SecretKey : string;
  Region : string;
  AssumeRoleARN : string;
  AuthType : string;
  ExternalID : string;
  Profile : string
}.

Definition loc : Type := nat.

(** An [http.RoundTripper]: a pointer to the base transport, or the
    signing middleware [sigv4.New(config, next)] holding its
    configuration and its delegate. *)
Inductive RoundTripper : Type :=
  | RT_Transport (t : loc)
  | RT_SigV4 (config : sigv4_Config) (next : RoundTripper).

Record dataSourceTransport : Type := {
  datasourceName : string;
  headers : gmap string string;
  transport : loc;
  next : RoundTripper
}.

Record cachedTransport : Type := {
  updated : Z;
  handler : loc
}.

(** [cd_updated] is the field [updated] of [cachedDecryptedJSON]. *)
Record cachedDecryptedJSON : Type := {
  cd_updated : Z;
  json : gmap string string
}.

(** The program state: both caches, the two arenas, and the record of
    calls made to the secret store (most recent first). *)
Record World : Type := {
  ptc : gmap Z cachedTransport;
  dsDecryptionCache : gmap Z cachedDecryptedJSON;
  transports : list http_Transport;
  handlers : list dataSourceTransport;
  decryptCalls : list SecureJson
}.

Definition initWorld : World :=
  {| ptc := ∅; dsDecryptionCache := ∅; transports := [];
     handlers := []; decryptCalls := [] |}.

(** *** Stateful computations that may panic *)

Definition M (A : Type) : Type := World -> outcome A * World.

Definition ret {A} (a : A) : M A := fun w => (Returned a, w).

Definition bind {A B} (m : M A) (k : A -> M B) : M B :=
  fun w =>
    match m w with
    | (Returned a, w1) => k a w1
    | (Panicked v, w1) => (Panicked v, w1)
    end.

Definition panic {A} (v : panic_value) : M A := fun w => (Panicked v, w).

Notation "'let*' x ':=' m 'in' k" := (bind m (fun x => k))
  (at level 10, x name, m at level 100, k at level 200).

(** The elementary state changes. *)
Definition log_Decrypt (s : SecureJson) (w : World) : World :=
  {| ptc := ptc w; dsDecryptionCache := dsDecryptionCache w;
     transports := transports w; handlers := handlers w;
     decryptCalls := s :: decryptCalls w |}.

Definition alloc_Transport (t : http_Transport) (w : World) : World :=
  {| ptc := ptc w; dsDecryptionCache := dsDecryptionCache w;
     transports := transports w ++ [t]; handlers := handlers w;
     decryptCalls := decryptCalls w |}.

Definition alloc_dataSourceTransport (d : dataSourceTransport) (w : World) : World :=
  {| ptc := ptc w; dsDecryptionCache := dsDecryptionCache w;
     transports := transports w; handlers := handlers w ++ [d];
     decryptCalls := decryptCalls w |}.

Definition set_ptc (c : gmap Z cachedTransport) (w : World) : World :=
  {| ptc := c; dsDecryptionCache := dsDecryptionCache w;
     transports := transports w; handlers := handlers w;
     decryptCalls := decryptCalls w |}.

Definition set_dsDecryptionCache (c : gmap Z cachedDecryptedJSON) (w : World) : World :=
  {| ptc := ptc w; dsDecryptionCache := c;
     transports := transports w; handlers := handlers w;
     decryptCalls := decryptCalls w |}.

(** [s.Decrypt()], recorded. *)
Definition call_Decrypt (s : SecureJson) : M (gmap string string) :=
  fun w => (Returned (Decrypt s), log_Decrypt s w).

(** [&http.Transport{...}] *)
Definition new_Transport (t : http_Transport) : M loc :=
  fun w => (Returned (length (transports w)), alloc_Transport t w).

(** [&dataSourceTransport{...}] *)
Definition new_dataSourceTransport (d : dataSourceTransport) : M loc :=
  fun w => (Returned (length (handlers w)), alloc_dataSourceTransport d w).

(** [ptc.cache[id] = entry] *)
Definition ptc_store (id : Z) (entry : cachedTransport) : M unit :=
  fun w => (Returned tt, set_ptc (<[id := entry]> (ptc w)) w).

(** [dsDecryptionCache.cache[id] = entry] *)
Definition dsDecryptionCache_store (id : Z) (entry : cachedDecryptedJSON) : M unit :=
  fun w =>
    (Returned tt,
     set_dsDecryptionCache (<[id := entry]> (dsDecryptionCache w)) w).

Definition get_World : M World := fun w => (Returned w, w).

(** [if t, present := cache[ds.Id]; present && ds.Updated.Equal(t.updated)] *)
Definition lookup_valid {E} (upd : E -> Z) (cache : gmap Z E) (ds : DataSource)
  : option E :=
  match cache !! Id ds with
  | Some t => if time_Equal (Updated ds) (upd t) then Some t else None
  | None => None
  end.

(** *** The operations *)

Definition getTimeout (ds : DataSource) : Z :=
  let timeout :=
    match JsonData ds with
    | Some j => MustInt (Get j "timeout")
    | None => 0
    end in
  let timeout := if timeout =? 0 then DataProxyTimeout setting else timeout in
  wrap64 (timeout * time_Second).

Definition with_RootCAs (c : tls_Config) (p : CertPool) : tls_Config :=
  {| InsecureSkipVerify := InsecureSkipVerify c; ServerName := ServerName c;
     RootCAs := Some p; Certificates := Certificates c;
     Renegotiation := Renegotiation c |}.

Definition with_Certificates (c : tls_Config) (l : list Certificate) : tls_Config :=
  {| InsecureSkipVerify := InsecureSkipVerify c; ServerName := ServerName c;
     RootCAs := RootCAs c; Certificates := l;
     Renegotiation := Renegotiation c |}.

Definition with_Renegotiation (c : tls_Config) (r : RenegotiationSupport) : tls_Config :=
  {| InsecureSkipVerify := InsecureSkipVerify c; ServerName := ServerName c;
     RootCAs := RootCAs c; Certificates := Certificates c;
     Renegotiation := r |}.

(** The CA step of [GetTLSConfig]: lines 311-318. *)
Definition tls_ca_step (tlsAuthWithCACert : bool) (decrypted : gmap string string)
    (tlsConfig : tls_Config) : tls_Config + error :=
  if tlsAuthWithCACert && (0 <? String.length (go_index decrypted "tlsCACert"))%nat
  then
    let (caPool, ok) :=
      AppendCertsFromPEM NewCertPool (go_index decrypted "tlsCACert") in
    if negb ok
    then inr (errors_New "failed to parse TLS CA PEM certificate")
    else inl (with_RootCAs tlsConfig caPool)
  else inl tlsConfig.

(** The client certificate step of [GetTLSConfig]: lines 320-326. *)
Definition tls_client_step (tlsClientAuth : bool) (decrypted : gmap string string)
    (tlsConfig : tls_Config) : tls_Config + error :=
  if tlsClientAuth
  then
    match X509KeyPair (go_index decrypted "tlsClientCert")
                      (go_index decrypted "tlsClientKey") with
    | inl cert => inl (with_Certificates tlsConfig [cert])
    | inr err => inr err
    end
  else inl tlsConfig.

Definition GetTLSConfig (ds : DataSource) : M (tls_Config + error) :=
  let flag (key : string) :=
    match JsonData ds with
    | Some j => MustBool (Get j key)
    | None => false
    end in
  let tlsClientAuth := flag "tlsAuth" in
  let tlsAuthWithCACert := flag "tlsAuthWithCACert" in
  let tlsSkipVerify := flag "tlsSkipVerify" in
  let serverName :=
    match JsonData ds with
    | Some j => MustString (Get j "serverName")
    | None => ""
    end in
  let tlsConfig :=
    {| InsecureSkipVerify := tlsSkipVerify; ServerName := serverName;
       RootCAs := None; Certificates := [];
       Renegotiation := RenegotiateNever |} in
  if tlsClientAuth || tlsAuthWithCACert
  then
    let* decrypted := call_Decrypt (SecureJsonData ds) in
    match tls_ca_step tlsAuthWithCACert decrypted tlsConfig with
    | inr err => ret (inr err)
    | inl tlsConfig => ret (tls_client_step tlsClientAuth decrypted tlsConfig)
    end
  else ret (inl tlsConfig).

(** The loop of [getCustomHeaders] (lines 345-360), from [index] on.  The
    loop has no bound in the source; [fuel] bounds the iterations here and
    [None] means the bound was reached before the [break].  [index] is a
    Go [int]; it is a [nat] here, since the loop ends long before it could
    wrap ([headerScan_enough_fuel]), and [pretty] is its [%d] rendering. *)
Fixpoint headerScan (j : Json) (decrypted : gmap string string)
    (fuel : nat) (index : nat) (headers : gmap string string)
  : option (gmap string string) :=
  match fuel with
  | O => None
  | S fuel =>
      let headerNameSuffix := "httpHeaderName" +:+ pretty index in
      let headerValueSuffix := "httpHeaderValue" +:+ pretty index in
      let key := MustString (Get j headerNameSuffix) in
      if decide (key = "")
      then Some headers
      else
        match decrypted !! headerValueSuffix with
        | Some val => headerScan j decrypted fuel (S index) (<[key := val]> headers)
        | None => headerScan j decrypted fuel (S index) headers
        end
  end.

(** An iteration count that always reaches the [break]: one more than the
    number of members of the configuration object
    ([headerScan_enough_fuel]). *)
Definition headerScan_fuel (j : Json) : nat :=
  match j with
  | JObject m => S (size m)
  | JValue _ => 1
  end.

Definition getCustomHeaders (ds : DataSource) : M (gmap string string) :=
  match JsonData ds with
  | None => ret ∅
  | Some j =>
      let* decrypted := call_Decrypt (SecureJsonData ds) in
      ret (default ∅ (headerScan j decrypted (headerScan_fuel j) 1 ∅))
  end.

Definition DecryptedValues (ds : DataSource) : M (gmap string string) :=
  let* w := get_World in
  match lookup_valid cd_updated (dsDecryptionCache w) ds with
  | Some item => ret (json item)
  | None =>
      let* json := call_Decrypt (SecureJsonData ds) in
      let* _ := dsDecryptionCache_store (Id ds)
                  {| cd_updated := Updated ds; json := json |} in
      ret json
  end.

Definition DecryptedValue (ds : DataSource) (key : string) : M (string * bool) :=
  let* values := DecryptedValues ds in
  ret (go_index values key, bool_decide (is_Some (values !! key))).

(** [dsDecryptionCache.cache = make(map[int64]cachedDecryptedJSON)] *)
Definition ClearDSDecryptionCache : M unit :=
  fun w => (Returned tt, set_dsDecryptionCache ∅ w).

Definition awsServiceNamespace (dsType : string) : outcome string :=
  if bool_decide (dsType = DS_ES) || bool_decide (dsType = DS_ES_OPEN_DISTRO)
  then Returned "es"
  else if bool_decide (dsType = DS_PROMETHEUS)
  then Returned "aps"
  else Panicked (UnsupportedDatasource dsType).

Definition lift {A} (o : outcome A) : M A := fun w => (o, w).

(** [ds.JsonData] dereferenced. *)
Definition deref_JsonData (ds : DataSource) : M Json :=
  match JsonData ds with
  | Some j => ret j
  | None => panic NilPointerDereference
  end.

(** The [sigv4.Config] literal of [sigV4Middleware], lines 279-288. *)
Definition sigv4_Config_of (service : string) (decrypted : gmap string string)
    (j : Json) : sigv4_Config :=
  {| Service := service;
     AccessKey := go_index decrypted "sigV4AccessKey";
     SecretKey := go_index decrypted "sigV4SecretKey";
     Region := MustString (Get j "sigV4Region");
     AssumeRoleARN := MustString (Get j "sigV4AssumeRoleArn");
     AuthType := MustString (Get j "sigV4AuthType");
     ExternalID := MustString (Get j "sigV4ExternalId");
     Profile := MustString (Get j "sigV4Profile") |}.

Definition sigV4Middleware (ds : DataSource) (next : RoundTripper) : M RoundTripper :=
  let* decrypted := DecryptedValues ds in
  let* service := lift (awsServiceNamespace (Type_ ds)) in
  let* j := deref_JsonData ds in
  ret (RT_SigV4 (sigv4_Config_of service decrypted j) next).

(** [ds.JsonData != nil && ds.JsonData.Get("sigV4Auth").MustBool() &&
    setting.SigV4AuthEnabled] *)
Definition sigV4_enabled (ds : DataSource) : bool :=
  match JsonData ds with
  | Some j => MustBool (Get j "sigV4Auth") && SigV4AuthEnabled setting
  | None => false
  end.

(** The [http.Transport] literal of [GetHttpTransport], lines 99-110
    ([Proxy] is always [http.ProxyFromEnvironment]). *)
Definition base_Transport (ds : DataSource) (tlsConfig : tls_Config) : http_Transport :=
  {| TLSClientConfig := tlsConfig;
     DialTimeout := getTimeout ds;
     DialKeepAlive := wrap64 (DataProxyKeepAlive setting * time_Second);
     TLSHandshakeTimeout :=
       wrap64 (DataProxyTLSHandshakeTimeout setting * time_Second);
     ExpectContinueTimeout :=
       wrap64 (DataProxyExpectContinueTimeout setting * time_Second);
     MaxIdleConns := DataProxyMaxIdleConns setting;
     IdleConnTimeout :=
       wrap64 (DataProxyIdleConnTimeout setting * time_Second) |}.

(** [GetHttpTransport] after a cache miss: lines 90-132. *)
Definition GetHttpTransport_build (ds : DataSource) : M (loc + error) :=
  let* r := GetTLSConfig ds in
  match r with
  | inr err => ret (inr err)
  | inl tlsConfig =>
      let tlsConfig := with_Renegotiation tlsConfig RenegotiateFreelyAsClient in
      let* customHeaders := getCustomHeaders ds in
      let* transport := new_Transport (base_Transport ds tlsConfig) in
      let* next :=
        (if sigV4_enabled ds
         then sigV4Middleware ds (RT_Transport transport)
         else ret (RT_Transport transport)) in
      let* dsTransport :=
        new_dataSourceTransport
          {| datasourceName := Name ds; headers := customHeaders;
             transport := transport; next := next |} in
      let* _ := ptc_store (Id ds)
                  {| updated := Updated ds; handler := dsTransport |} in
      ret (inl dsTransport)
  end.

(** Creates a HTTP Transport middleware chain. *)
Definition GetHttpTransport (ds : DataSource) : M (loc + error) :=
  let* w := get_World in
  match lookup_valid updated (ptc w) ds with
  | Some t => ret (inl (handler t))
  | None => GetHttpTransport_build ds
  end.

Record http_Client : Type := {
  Timeout : Z;
  Transport : loc
}.

Definition GetHttpClient (ds : DataSource) : M (http_Client + error) :=
  let* r := GetHttpTransport ds in
  match r with
  | inr err => ret (inr err)
  | inl transport =>
      ret (inl {| Timeout := getTimeout ds; Transport := transport |})
  end.

(** *** Runs of the program *)

(** The calls a client of the package can make. *)
Inductive call : Type :=
  | Call_GetHttpTransport (ds : DataSource)
  | Call_GetHttpClient (ds : DataSource)
  | Call_GetTLSConfig (ds : DataSource)
  | Call_DecryptedValues (ds : DataSource)
  | Call_DecryptedValue (ds : DataSource) (key : string)
  | Call_ClearDSDecryptionCache.

(** The state after a call (a panic is recovered by the caller). *)
Definition exec (c : call) (w : World) : World :=
  match c with
  | Call_GetHttpTransport ds => snd (GetHttpTransport ds w)
  | Call_GetHttpClient ds => snd (GetHttpClient ds w)
  | Call_GetTLSConfig ds => snd (GetTLSConfig ds w)
  | Call_DecryptedValues ds => snd (DecryptedValues ds w)
  | Call_DecryptedValue ds key => snd (DecryptedValue ds key w)
  | Call_ClearDSDecryptionCache => snd (ClearDSDecryptionCache w)
  end.

(** The state after a sequence of calls. *)
Definition run (cs : list call) (w : World) : World :=
  foldl (fun w c => exec c w) w cs.

(** The states the program can be in: those a sequence of calls leads to
    from the initial, empty caches. *)
Definition reachable (w : World) : Prop :=
  exists cs, w = run cs initWorld.

End Models.

(** ** The header scan, as the design document words it

    "Scans keys named by an index suffix starting at 1; for index n, if
    the header-name entry is absent or empty, the scan terminates."  The
    definitions below follow these words; [headerScan] above follows the
    loop of the source, and the two are compared in [headerScan_run]. *)

(** The header name configured at index [n], [""] when absent. *)
Definition headerName (j : Json) (n : nat) : string :=
  MustString (Get j ("httpHeaderName" +:+ pretty n)).

(** The secret key holding the header value of index [n]. *)
Definition headerValueKey (n : nat) : string :=
  "httpHeaderValue" +:+ pretty n.

(** What index [n] contributes: its name/value pair when the value key is
    in the decrypted map, nothing otherwise. *)
Definition apply_header (j : Json) (decrypted : gmap string string)
    (headers : gmap string string) (n : nat) : gmap string string :=
  match decrypted !! headerValueKey n with
  | Some val => <[headerName j n := val]> headers
  | None => headers
  end.

(** The headers of the given indices, applied in order. *)
Definition headers_of (j : Json) (decrypted : gmap string string)
    (indices : list nat) : gmap string string :=
  foldl (apply_header j decrypted) ∅ indices.

(** [g] is the first index without a header name. *)
Definition first_gap (j : Json) (g : nat) : Prop :=
  (1 <= g)%nat /\ headerName j g = "" /\
  forall i, (1 <= i < g)%nat -> headerName j i <> "".

(** ** Predicates used in the statements *)

Section Vocabulary.

Context {ext : Externals}.

Implicit Types (ds : DataSource) (w : World).

(** The allow-list of [awsServiceNamespace]. *)
Definition recognized (dsType : string) : Prop :=
  dsType = DS_ES \/ dsType = DS_ES_OPEN_DISTRO \/ dsType = DS_PROMETHEUS.

(** [w'] differs from [w] at most in the decryption cache and in the
    record of decrypt calls. *)
Definition same_store w w' : Prop :=
  ptc w' = ptc w /\ handlers w' = handlers w /\ transports w' = transports w.

(** The transport record a build makes from the TLS configuration it got. *)
Definition built_Transport ds (cfg : tls_Config) : http_Transport :=
  base_Transport ds (with_Renegotiation cfg RenegotiateFreelyAsClient).

(** The cache entry a build stores. *)
Definition built_entry ds w : cachedTransport :=
  {| updated := Updated ds; handler := length (handlers w) |}.

(** Every cached handler pointer is allocated. *)
Definition handlers_valid w : Prop :=
  forall id (t : cachedTransport),
    ptc w !! id = Some t -> (handler t < length (handlers w))%nat.

(** Every handler points to an allocated base transport, and every base
    transport permits renegotiation. *)
Definition transports_ok w : Prop :=
  (forall p (d : dataSourceTransport),
     handlers w !! p = Some d -> (transport d < length (transports w))%nat) /\
  (forall q (T : http_Transport),
     transports w !! q = Some T ->
     Renegotiation (TLSClientConfig T) = RenegotiateFreelyAsClient).

(** The handler at address [old] is allocated and is not the one cached
    for [id]. *)
Definition retired (id : Z) (old : loc) w : Prop :=
  (old < length (handlers w))%nat /\
  forall t : cachedTransport, ptc w !! id = Some t -> handler t <> old.

End Vocabulary.

(** ** A concrete set of collaborators and resources

    Stand-ins used to run the operations on concrete inputs: secrets
    are stored in clear, a PEM bundle yields one certificate when it
    starts with the certificate header, and a key pair matches when the
    key names the certificate. *)
Module Example.

Definition test_settings (sigV4 : bool) : Settings :=
  {| DataProxyTimeout := 30; DataProxyKeepAlive := 30;
     DataProxyTLSHandshakeTimeout := 10; DataProxyExpectContinueTimeout := 1;
     DataProxyMaxIdleConns := 100; DataProxyIdleConnTimeout := 90;
     SigV4AuthEnabled := sigV4 |}.

Definition test_ext (sigV4 : bool) : Externals :=
  {| SecureJson := gmap string string;
     Decrypt := fun s => s;
     Certificate := string;
     parsePEMCertificates := fun pem =>
       if String.prefix "-----BEGIN CERTIFICATE-----" pem then [pem] else [];
     X509KeyPair := fun cert key =>
       if String.eqb key ("key of " +:+ cert)
       then inl cert
       else inr (errors_New "tls: private key does not match public key");
     DS_ES := "elasticsearch";
     DS_ES_OPEN_DISTRO := "grafana-es-open-distro-datasource";
     DS_PROMETHEUS := "prometheus";
     setting := test_settings sigV4 |}.

(** No secrets stored. *)
Definition sec0 : gmap string string := ∅.

(** Process-wide signing enabled, and disabled. *)
Definition ext_on : Externals := test_ext true.
Definition ext_off : Externals := test_ext false.

Definition mkDS (ext : Externals) (id : Z) (type : string)
    (config : list (string * jvalue)) (secrets : @SecureJson ext)
    (upd : Z) : @DataSource ext :=
  {| Id := id; Name := "ds"; Type_ := type;
     JsonData := Some (JObject (list_to_map config));
     SecureJsonData := secrets; Updated := upd |}.

(** Signing enabled in the configuration, type not recognized. *)
Definition ds_unknown (ext : Externals) (secrets : @SecureJson ext) : @DataSource ext :=
  mkDS ext 7 "unknown-plugin"
    [("sigV4Auth", JBool true); ("sigV4Region", JString "us-east-1")] secrets 1.

(** Signing enabled in the configuration, type Elasticsearch. *)
Definition ds_es (ext : Externals) (secrets : @SecureJson ext) : @DataSource ext :=
  mkDS ext 7 "elasticsearch"
    [("sigV4Auth", JBool true); ("sigV4Region", JString "us-east-1")] secrets 1.

(** No signing, no TLS options. *)
Definition ds_plain (ext : Externals) (secrets : @SecureJson ext) (upd : Z)
  : @DataSource ext :=
  mkDS ext 7 "prometheus" [] secrets upd.

(** CA pinning requested with the given CA bytes, at time [upd]. *)
Definition ds_ca (ca : string) (upd : Z) : @DataSource ext_on :=
  mkDS ext_on 7 "prometheus" [("tlsAuthWithCACert", JBool true)]
    ({[ "tlsCACert" := ca ]} : gmap string string) upd.

(** Header names at indices 1 and 3, none at 2; values for all three. *)
Definition ds_gap : @DataSource ext_on :=
  mkDS ext_on 7 "prometheus"
    [("httpHeaderName1", JString "X-One"); ("httpHeaderName3", JString "X-Three")]
    (list_to_map [("httpHeaderValue1", "one"); ("httpHeaderValue2", "two");
                  ("httpHeaderValue3", "three")] : gmap string string) 1.

(** Header names at indices 1 and 2, a value only for index 2. *)
Definition ds_novalue : @DataSource ext_on :=
  mkDS ext_on 7 "prometheus"
    [("httpHeaderName1", JString "X-One"); ("httpHeaderName2", JString "X-Two")]
    ({[ "httpHeaderValue2" := "two" ]} : gmap string string) 1.

(** The state after a first [GetHttpTransport] for the plain resource at
    time 1: its handler, at address 0, is cached under id 7. *)
Definition w_cached : @World ext_on :=
  snd (GetHttpTransport (ds_plain ext_on sec0 1) initWorld).

End Example.

(** ** Further vocabulary *)

Section Vocabulary2.

Context {ext : Externals}.

Implicit Types (ds : DataSource) (w : World).

(** A boolean option of the configuration: [false] when [JsonData] is nil
    or the entry is missing or not a boolean. *)
Definition config_flag ds (key : string) : bool :=
  match JsonData ds with
  | Some j => MustBool (Get j key)
  | None => false
  end.

(** A string option of the configuration, [""] by default. *)
Definition config_string ds (key : string) : string :=
  match JsonData ds with
  | Some j => MustString (Get j key)
  | None => ""
  end.

(** The CA step of [GetTLSConfig] does not fail: pinning is not requested,
    or the CA bytes are empty, or they hold a certificate. *)
Definition ca_usable ds : Prop :=
  config_flag ds "tlsAuthWithCACert" = true ->
  go_index (Decrypt (SecureJsonData ds)) "tlsCACert" <> "" ->
  parsePEMCertificates (go_index (Decrypt (SecureJsonData ds)) "tlsCACert") <> [].

(** The client key pair as [GetTLSConfig] reads it. *)
Definition client_key_pair ds : Certificate + error :=
  X509KeyPair (go_index (Decrypt (SecureJsonData ds)) "tlsClientCert")
              (go_index (Decrypt (SecureJsonData ds)) "tlsClientKey").

(** What [DecryptedValues] answers in state [w]: the cached map when the
    entry of the id carries the resource's timestamp, a fresh decryption
    otherwise. *)
Definition cached_values ds w : gmap string string :=
  match lookup_valid cd_updated (dsDecryptionCache w) ds with
  | Some item => json item
  | None => Decrypt (SecureJsonData ds)
  end.

(** Different resource ids are cached with different handlers. *)
Definition handlers_distinct w : Prop :=
  forall id1 id2 (t1 t2 : cachedTransport),
    ptc w !! id1 = Some t1 -> ptc w !! id2 = Some t2 ->
    handler t1 = handler t2 -> id1 = id2.

(** The resource id a call may write the transport cache for. *)
Definition transport_call_Id (c : call) : option Z :=
  match c with
  | Call_GetHttpTransport ds | Call_GetHttpClient ds => Some (Id ds)
  | _ => None
  end.

End Vocabulary2.

(** ** The provider-based path and the round trip

    The rest of the file: [RoundTrip] (its header loop), [TLSOptions],
    [HTTPClientOptions], [GetHttpTransport2], [GetHttpClient2] and
    [GetTLSConfig2]. *)

(** Modelled from the spec: [MustMap] of the [simplejson] package, whose
    source is missing here; the configuration is "a plain configuration
    mapping (string keys to arbitrary JSON-like values)", and a JSON that
    is no object has no members. *)
Definition MustMap (j : Json) : gmap string jvalue :=
  match j with
  | JObject m => m
  | JValue _ => ∅
  end.

Record httpclient_TimeoutOptions : Type := {
  opt_Timeout : Z;
  opt_KeepAlive : Z;
  opt_TLSHandshakeTimeout : Z;
  opt_ExpectContinueTimeout : Z;
  opt_MaxIdleConns : Z;
  opt_IdleConnTimeout : Z
}.

Record httpclient_TLSOptions : Type := {
  tls_InsecureSkipVerify : bool;
  tls_ServerName : string;
  CACertificate : string;
  ClientCertificate : string;
  ClientKey : string
}.

Record httpclient_BasicAuthOptions : Type := {
  ba_User : string;
  ba_Password : string
}.

Section Models2.

Context {ext : Externals}.

(** [httpclient.Options]; [httpclient.SigV4Config] has the fields of
    [sigv4.Config]. *)
Record httpclient_Options : Type := {
  Timeouts : httpclient_TimeoutOptions;
  opt_Headers : gmap string string;
  Labels : gmap string string;
  TLS : httpclient_TLSOptions;
  CustomOptions : option (gmap string jvalue);
  opt_BasicAuth : option httpclient_BasicAuthOptions;
  SigV4 : option sigv4_Config
}.

(** [DataSource] with the further fields [HTTPClientOptions] reads. *)
Record DataSourceExt : Type := {
  ds_core :> DataSource;
  Uid : string;
  User : string;
  BasicAuth : bool;
  BasicAuthUser : string
}.

(** Further collaborators.
    - [DecryptedBasicAuthPassword]: the method of that name of
      [DataSource], defined elsewhere in the package.
    - [RoundTripper2], [ProviderState]: the round trippers an
      [httpclient.Provider] hands out, and its internal state.
    - [CanonicalMIMEHeaderKey]: the key normalisation of [net/textproto]
      applied by [http.Header.Set]. *)
Class Externals2 : Type := {
  DecryptedBasicAuthPassword : DataSourceExt -> M string;
  RoundTripper2 : Type;
  ProviderState : Type;
  CanonicalMIMEHeaderKey : string -> string
}.

Context {ext2 : Externals2}.

Local Notation "'let*' x ':=' m 'in' k" := (bind m (fun x => k))
  (at level 10, x name, m at level 100, k at level 200).

(** *** [RoundTrip]: the header loop *)

Definition http_Header : Type := gmap string (list string).

(** [h.Set(key, value)] *)
Definition Header_Set (h : http_Header) (key value : string) : http_Header :=
  <[CanonicalMIMEHeaderKey key := [value]]> h.

(** [for key, value := range d.headers { req.Header.Set(key, value) }]
    (lines 35-37).  Go visits the entries of a map in an unspecified
    order: [order] is the order of this visit, an arrangement of the
    entries of [d.headers]. *)
Definition RoundTrip_headers (order : list (string * string))
    (h : http_Header) : http_Header :=
  foldl (fun h kv => Header_Set h kv.1 kv.2) h order.

(** *** [TLSOptions] *)

Definition set_CACertificate (o : httpclient_TLSOptions) (val : string) :=
  {| tls_InsecureSkipVerify := tls_InsecureSkipVerify o;
     tls_ServerName := tls_ServerName o; CACertificate := val;
     ClientCertificate := ClientCertificate o; ClientKey := ClientKey o |}.

Definition set_ClientCertificate (o : httpclient_TLSOptions) (val : string) :=
  {| tls_InsecureSkipVerify := tls_InsecureSkipVerify o;
     tls_ServerName := tls_ServerName o; CACertificate := CACertificate o;
     ClientCertificate := val; ClientKey := ClientKey o |}.

Definition set_ClientKey (o : httpclient_TLSOptions) (val : string) :=
  {| tls_InsecureSkipVerify := tls_InsecureSkipVerify o;
     tls_ServerName := tls_ServerName o; CACertificate := CACertificate o;
     ClientCertificate := ClientCertificate o; ClientKey := val |}.

(** [exists && len(val) > 0] *)
Definition exists_nonempty (r : string * bool) : bool :=
  r.2 && (0 <? String.length r.1)%nat.

Definition TLSOptions (ds : DataSource) : M httpclient_TLSOptions :=
  let tlsClientAuth := config_flag ds "tlsAuth" in
  let tlsAuthWithCACert := config_flag ds "tlsAuthWithCACert" in
  let tlsSkipVerify := config_flag ds "tlsSkipVerify" in
  let serverName := config_string ds "serverName" in
  let opts :=
    {| tls_InsecureSkipVerify := tlsSkipVerify; tls_ServerName := serverName;
       CACertificate := ""; ClientCertificate := ""; ClientKey := "" |} in
  if tlsClientAuth || tlsAuthWithCACert
  then
    let* opts :=
      (if tlsAuthWithCACert
       then
         let* r := DecryptedValue ds "tlsCACert" in
         ret (if exists_nonempty r then set_CACertificate opts r.1 else opts)
       else ret opts) in
    if tlsClientAuth
    then
      let* r := DecryptedValue ds "tlsClientCert" in
      let opts :=
        if exists_nonempty r then set_ClientCertificate opts r.1 else opts in
      let* r := DecryptedValue ds "tlsClientKey" in
      ret (if exists_nonempty r then set_ClientKey opts r.1 else opts)
    else ret opts
  else ret opts.

(** *** [HTTPClientOptions] *)

Definition set_CustomOptions (o : httpclient_Options) (m : gmap string jvalue) :=
  {| Timeouts := Timeouts o; opt_Headers := opt_Headers o; Labels := Labels o;
     TLS := TLS o; CustomOptions := Some m; opt_BasicAuth := opt_BasicAuth o;
     SigV4 := SigV4 o |}.

Definition set_BasicAuth (o : httpclient_Options) (b : httpclient_BasicAuthOptions) :=
  {| Timeouts := Timeouts o; opt_Headers := opt_Headers o; Labels := Labels o;
     TLS := TLS o; CustomOptions := CustomOptions o; opt_BasicAuth := Some b;
     SigV4 := SigV4 o |}.

Definition set_SigV4 (o : httpclient_Options) (c : sigv4_Config) :=
  {| Timeouts := Timeouts o; opt_Headers := opt_Headers o; Labels := Labels o;
     TLS := TLS o; CustomOptions := CustomOptions o;
     opt_BasicAuth := opt_BasicAuth o; SigV4 := Some c |}.

Definition set_AccessKey (c : sigv4_Config) (val : string) : sigv4_Config :=
  {| Service := Service c; AccessKey := val; SecretKey := SecretKey c;
     Region := Region c; AssumeRoleARN := AssumeRoleARN c;
     AuthType := AuthType c; ExternalID := ExternalID c;
     Profile := Profile c |}.

Definition set_SecretKey (c : sigv4_Config) (val : string) : sigv4_Config :=
  {| Service := Service c; AccessKey := AccessKey c; SecretKey := val;
     Region := Region c; AssumeRoleARN := AssumeRoleARN c;
     AuthType := AuthType c; ExternalID := ExternalID c;
     Profile := Profile c |}.

(** The options literal and [CustomOptions]: lines 183-203. *)
Definition HTTPClientOptions_base (ds : DataSourceExt) : M httpclient_Options :=
  let timeouts :=
    {| opt_Timeout := getTimeout ds;
       opt_KeepAlive := wrap64 (DataProxyKeepAlive setting * time_Second);
       opt_TLSHandshakeTimeout :=
         wrap64 (DataProxyTLSHandshakeTimeout setting * time_Second);
       opt_ExpectContinueTimeout :=
         wrap64 (DataProxyExpectContinueTimeout setting * time_Second);
       opt_MaxIdleConns := DataProxyMaxIdleConns setting;
       opt_IdleConnTimeout :=
         wrap64 (DataProxyIdleConnTimeout setting * time_Second) |} in
  let* headers := getCustomHeaders ds in
  let labels : gmap string string :=
    <["kind" := "datasource"]>
      (<["datasource_uid" := Uid ds]>
         (<["datasource_name" := Name ds]> ∅)) in
  let* tls := TLSOptions ds in
  let opts :=
    {| Timeouts := timeouts; opt_Headers := headers; Labels := labels;
       TLS := tls; CustomOptions := None; opt_BasicAuth := None;
       SigV4 := None |} in
  ret (match JsonData ds with
       | Some j => set_CustomOptions opts (MustMap j)
       | None => opts
       end).

(** Basic authentication: lines 205-215. *)
Definition HTTPClientOptions_basicAuth (ds : DataSourceExt)
    (opts : httpclient_Options) : M httpclient_Options :=
  if BasicAuth ds
  then
    let* password := DecryptedBasicAuthPassword ds in
    ret (set_BasicAuth opts
           {| ba_User := BasicAuthUser ds; ba_Password := password |})
  else if negb (BasicAuth ds) && negb (bool_decide (User ds = ""))
  then
    let* password := DecryptedBasicAuthPassword ds in
    ret (set_BasicAuth opts {| ba_User := User ds; ba_Password := password |})
  else ret opts.

(** Request signing: lines 217-234. *)
Definition HTTPClientOptions_sigV4 (ds : DataSourceExt)
    (opts : httpclient_Options) : M httpclient_Options :=
  match JsonData ds with
  | Some j =>
      if MustBool (Get j "sigV4Auth")
      then
        let* service := lift (awsServiceNamespace (Type_ ds)) in
        let sigV4 :=
          {| Service := service; AccessKey := ""; SecretKey := "";
             Region := MustString (Get j "sigV4Region");
             AssumeRoleARN := MustString (Get j "sigV4AssumeRoleArn");
             AuthType := MustString (Get j "sigV4AuthType");
             ExternalID := MustString (Get j "sigV4ExternalId");
             Profile := MustString (Get j "sigV4Profile") |} in
        let* r := DecryptedValue ds "sigV4AccessKey" in
        let sigV4 := if r.2 then set_AccessKey sigV4 r.1 else sigV4 in
        let* r := DecryptedValue ds "sigV4SecretKey" in
        let sigV4 := if r.2 then set_SecretKey sigV4 r.1 else sigV4 in
        ret (set_SigV4 opts sigV4)
      else ret opts
  | None => ret opts
  end.

Definition HTTPClientOptions (ds : DataSourceExt) : M httpclient_Options :=
  let* opts := HTTPClientOptions_base ds in
  let* opts := HTTPClientOptions_basicAuth ds opts in
  HTTPClientOptions_sigV4 ds opts.

(** *** The second transport cache *)

(** An [httpclient.Provider]: its two methods, each a function of the
    options and of the provider's state. *)
Record Provider : Type := {
  provider_GetTransport :
    httpclient_Options -> ProviderState -> (RoundTripper2 + error) * ProviderState;
  provider_GetTLSConfig :
    httpclient_TLSOptions -> ProviderState -> (tls_Config + error) * ProviderState
}.

(** [updated2] is the field [updated] of [cachedRoundTripper2]. *)
Record cachedRoundTripper2 : Type := {
  updated2 : Z;
  roundTripper : RoundTripper2
}.

(** The state of the whole package: the state above, the cache [ptc2],
    the provider's state and the record of the options passed to
    [provider.GetTransport] (most recent first). *)
Record World2 : Type := {
  world : World;
  ptc2 : gmap Z cachedRoundTripper2;
  providerState : ProviderState;
  providerCalls : list httpclient_Options
}.

Definition set_world (w : World) (w2 : World2) : World2 :=
  {| world := w; ptc2 := ptc2 w2; providerState := providerState w2;
     providerCalls := providerCalls w2 |}.

Definition set_ptc2 (c : gmap Z cachedRoundTripper2) (w2 : World2) : World2 :=
  {| world := world w2; ptc2 := c; providerState := providerState w2;
     providerCalls := providerCalls w2 |}.

(** [provider.GetTransport(opts)], recorded. *)
Definition call_GetTransport (provider : Provider) (opts : httpclient_Options)
    (w2 : World2) : (RoundTripper2 + error) * World2 :=
  let (r, ps) := provider_GetTransport provider opts (providerState w2) in
  (r, {| world := world w2; ptc2 := ptc2 w2; providerState := ps;
         providerCalls := opts :: providerCalls w2 |}).

Definition GetHttpTransport2 (provider : Provider) (ds : DataSourceExt)
    (w2 : World2) : outcome (RoundTripper2 + error) * World2 :=
  match lookup_valid updated2 (ptc2 w2) ds with
  | Some t => (Returned (inl (roundTripper t)), w2)
  | None =>
      match HTTPClientOptions ds (world w2) with
      | (Panicked v, w1) => (Panicked v, set_world w1 w2)
      | (Returned opts, w1) =>
          match call_GetTransport provider opts (set_world w1 w2) with
          | (inr err, w3) => (Returned (inr err), w3)
          | (inl rt, w3) =>
              (Returned (inl rt),
               set_ptc2
                 (<[Id ds := {| updated2 := Updated ds; roundTripper := rt |}]>
                    (ptc2 w3))
                 w3)
          end
      end
  end.

Record http_Client2 : Type := {
  Timeout2 : Z;
  Transport2 : RoundTripper2
}.

Definition GetHttpClient2 (provider : Provider) (ds : DataSourceExt)
    (w2 : World2) : outcome (http_Client2 + error) * World2 :=
  match GetHttpTransport2 provider ds w2 with
  | (Returned (inl transport), w3) =>
      (Returned (inl {| Timeout2 := getTimeout ds; Transport2 := transport |}),
       w3)
  | (Returned (inr err), w3) => (Returned (inr err), w3)
  | (Panicked v, w3) => (Panicked v, w3)
  end.

Definition GetTLSConfig2 (httpClientProvider : Provider) (ds : DataSource)
    (w2 : World2) : outcome (tls_Config + error) * World2 :=
  match TLSOptions ds (world w2) with
  | (Panicked v, w1) => (Panicked v, set_world w1 w2)
  | (Returned opts, w1) =>
      let (r, ps) :=
        provider_GetTLSConfig httpClientProvider opts (providerState w2) in
      (Returned r,
       {| world := w1; ptc2 := ptc2 w2; providerState := ps;
          providerCalls := providerCalls w2 |})
  end.

End Models2.

(** ** Vocabulary for the provider-based path *)

Section Vocabulary3.

Context {ext : Externals} {ext2 : Externals2}.

(** The TLS options of a resource, read from the decrypted map [values]:
    each secret is taken when its flag is set, and is empty when the flag
    is not set or the secret is missing. *)
Definition TLSOptions_of (ds : DataSource) (values : gmap string string)
  : httpclient_TLSOptions :=
  {| tls_InsecureSkipVerify := config_flag ds "tlsSkipVerify";
     tls_ServerName := config_string ds "serverName";
     CACertificate :=
       if config_flag ds "tlsAuthWithCACert"
       then go_index values "tlsCACert" else "";
     ClientCertificate :=
       if config_flag ds "tlsAuth" then go_index values "tlsClientCert" else "";
     ClientKey :=
       if config_flag ds "tlsAuth" then go_index values "tlsClientKey" else "" |}.

(** The resource configures no basic authentication. *)
Definition no_basic_auth (ds : DataSourceExt) : Prop :=
  BasicAuth ds = false /\ User ds = "".

End Vocabulary3.

(** ** Further concrete resources, and a concrete provider

    Stand-ins for the further collaborators: the basic-auth password is
    the secret [basicAuthPassword]; the provider hands the options back
    as the round tripper, refuses options that skip verification, and
    counts its calls; header keys are left as they are. *)
Module Example2.

Import Example.

Definition test_ext2 : @Externals2 ext_on :=
  {| DecryptedBasicAuthPassword := fun ds =>
       bind (DecryptedValue ds "basicAuthPassword") (fun r => ret r.1);
     RoundTripper2 := httpclient_Options;
     ProviderState := nat;
     CanonicalMIMEHeaderKey := fun key => key |}.

Definition test_provider : @Provider ext_on test_ext2 :=
  {| provider_GetTransport := fun opts (n : @ProviderState ext_on test_ext2) =>
       (if tls_InsecureSkipVerify (TLS opts)
        then inr (errors_New "insecure options refused")
        else inl (opts : @RoundTripper2 ext_on test_ext2),
        S n);
     provider_GetTLSConfig := fun _ (n : @ProviderState ext_on test_ext2) =>
       (inr (errors_New "no TLS configuration"), S n) |}.

(** A provider that always fails. *)
Definition failing_provider : @Provider ext_on test_ext2 :=
  {| provider_GetTransport := fun _ (n : @ProviderState ext_on test_ext2) =>
       (inr (errors_New "no transport"), S n);
     provider_GetTLSConfig := fun _ (n : @ProviderState ext_on test_ext2) =>
       (inr (errors_New "no TLS configuration"), S n) |}.

Definition initWorld2 : @World2 ext_on test_ext2 :=
  @Build_World2 ext_on test_ext2 initWorld ∅ 0%nat [].

Definition mkExt (ds : @DataSource ext_on) (user : string) (basic : bool)
    (basicUser : string) : @DataSourceExt ext_on :=
  {| ds_core := ds; Uid := "uid-7"; User := user; BasicAuth := basic;
     BasicAuthUser := basicUser |}.

(** A second resource id. *)
Definition ds_other : @DataSource ext_on :=
  mkDS ext_on 8 "prometheus" [] sec0 1.

(** A timeout of 45 seconds. *)
Definition ds_timeout : @DataSource ext_on :=
  mkDS ext_on 7 "prometheus" [("timeout", JNumber 45)] sec0 1.

(** CA pinning and mutual TLS, with the given key. *)
Definition ds_mtls (key : string) : @DataSource ext_on :=
  mkDS ext_on 7 "prometheus"
    [("tlsAuth", JBool true); ("tlsAuthWithCACert", JBool true);
     ("serverName", JString "db.internal")]
    (list_to_map [("tlsCACert", "-----BEGIN CERTIFICATE-----CA");
                  ("tlsClientCert", "CERT"); ("tlsClientKey", key)]
       : gmap string string) 1.

(** The same header name at indices 1 and 2. *)
Definition ds_dup : @DataSource ext_on :=
  mkDS ext_on 7 "prometheus"
    [("httpHeaderName1", JString "X-Token"); ("httpHeaderName2", JString "X-Token")]
    (list_to_map [("httpHeaderValue1", "first"); ("httpHeaderValue2", "second")]
       : gmap string string) 1.

(** The Elasticsearch resource with signing, with the given access key. *)
Definition ds_es_key (accessKey : string) : @DataSource ext_on :=
  ds_es ext_on ({[ "sigV4AccessKey" := accessKey ]} : gmap string string).

(** Verification skipped: the concrete provider refuses. *)
Definition ds_insecure : @DataSource ext_on :=
  mkDS ext_on 7 "prometheus" [("tlsSkipVerify", JBool true)] sec0 1.

(** Both ids 7 and 8 cached. *)
Definition w_two : @World ext_on :=
  run [Call_GetHttpTransport (ds_plain ext_on sec0 1);
       Call_GetHttpTransport ds_other] initWorld.

End Example2.

(** ** The header scan loop *)

Section HeaderScan.

Variable j : Json.
Variable decrypted : gmap string string.

Lemma headerScan_break fuel index headers :
  headerName j index = "" ->
  headerScan j decrypted (S fuel) index headers = Some headers.
Proof.
  intros Hgap. cbn [headerScan]. fold (headerName j index).
  rewrite Hgap. reflexivity.
Qed.

Lemma headerScan_continue fuel index headers :
  headerName j index <> "" ->
  headerScan j decrypted (S fuel) index headers =
  headerScan j decrypted fuel (S index) (apply_header j decrypted headers index).
Proof.
  intros Hname. cbn [headerScan].
  fold (headerName j index). fold (headerValueKey index).
  destruct (decide (headerName j index = "")) as [E|_]; [contradiction|].
  unfold apply_header. destruct (decrypted !! headerValueKey index); reflexivity.
Qed.

(** The loop and the worded scan agree: with names at [index], ...,
    [index + k - 1] and none at [index + k], any fuel above [k] gives the
    headers of exactly those [k] indices. *)
Lemma headerScan_run k : forall fuel index headers,
  (forall i, (index <= i < index + k)%nat -> headerName j i <> "") ->
  headerName j (index + k) = "" ->
  (k < fuel)%nat ->
  headerScan j decrypted fuel index headers =
  Some (foldl (apply_header j decrypted) headers (seq index k)).
Proof.
  induction k as [|k IH]; intros fuel index headers Hnames Hgap Hfuel.
  - destruct fuel as [|fuel]; [lia|].
    rewrite Nat.add_0_r in Hgap. now apply headerScan_break.
  - destruct fuel as [|fuel]; [lia|].
    rewrite headerScan_continue by (apply Hnames; lia).
    cbn [seq foldl]. apply IH.
    + intros i Hi. apply Hnames. lia.
    + replace (S index + k)%nat with (index + S k)%nat by lia. exact Hgap.
    + lia.
Qed.

(** When the bound is reached, every index visited had a name. *)
Lemma headerScan_None fuel : forall index headers,
  headerScan j decrypted fuel index headers = None ->
  forall i, (index <= i < index + fuel)%nat -> headerName j i <> "".
Proof.
  induction fuel as [|fuel IH]; intros index headers Hnone i Hi; [lia|].
  destruct (decide (headerName j index = "")) as [E|E].
  - rewrite headerScan_break in Hnone by exact E. discriminate.
  - rewrite headerScan_continue in Hnone by exact E.
    destruct (decide (i = index)) as [->|Hne]; [exact E|].
    apply (IH _ _ Hnone). lia.
Qed.

End HeaderScan.

(** A named index is a member of the configuration object. *)
Lemma headerName_member (m : gmap string jvalue) (n : nat) :
  headerName (JObject m) n <> "" ->
  ("httpHeaderName" +:+ pretty n) ∈ dom m.
Proof.
  unfold headerName, Get. intros H. apply elem_of_dom.
  destruct (m !! ("httpHeaderName" +:+ pretty n)); [eauto|].
  exfalso. apply H. reflexivity.
Qed.

(** At most [size m] consecutive indices can carry a name. *)
Lemma named_indices_bound (m : gmap string jvalue) (index k : nat) :
  (forall i, (index <= i < index + k)%nat -> headerName (JObject m) i <> "") ->
  (k <= size m)%nat.
Proof.
  intros Hnames.
  set (keys := (fun n : nat => "httpHeaderName" +:+ pretty n) <$> seq index k).
  assert (Hnodup : NoDup keys).
  { apply NoDup_fmap_2; [|apply NoDup_seq].
    intros a b Hab. apply (inj (String.append "httpHeaderName")) in Hab.
    now apply (inj pretty) in Hab. }
  assert (Hsub : (list_to_set keys : gset string) ⊆ dom m).
  { intros x Hx. apply elem_of_list_to_set in Hx.
    apply list_elem_of_fmap in Hx as (n & -> & Hn).
    apply elem_of_seq in Hn. apply headerName_member, Hnames. lia. }
  apply subseteq_size in Hsub.
  rewrite size_list_to_set in Hsub by exact Hnodup.
  rewrite size_dom in Hsub.
  unfold keys in Hsub. rewrite length_fmap, length_seq in Hsub. exact Hsub.
Qed.

(** The loop of [getCustomHeaders] always reaches its [break] within
    [headerScan_fuel] iterations. *)
Lemma headerScan_enough_fuel (j : Json) (decrypted : gmap string string) :
  is_Some (headerScan j decrypted (headerScan_fuel j) 1 ∅).
Proof.
  destruct (headerScan j decrypted (headerScan_fuel j) 1 ∅) as [h|] eqn:E;
    [eauto|].
  exfalso. pose proof (headerScan_None _ _ _ _ _ E) as Hnames.
  destruct j as [m|v]; cbn [headerScan_fuel] in Hnames.
  - apply named_indices_bound in Hnames. lia.
  - apply (Hnames 1%nat); [lia|]. reflexivity.
Qed.

(** Up to any bound, either every index is named or there is a first gap. *)
Lemma first_gap_search (j : Json) (n : nat) :
  (forall i, (1 <= i < 1 + n)%nat -> headerName j i <> "") \/
  (exists g, first_gap j g /\ (g <= n)%nat).
Proof.
  induction n as [|n [Hall|(g & Hg & Hle)]].
  - left. intros i Hi. lia.
  - destruct (decide (headerName j (S n) = "")) as [E|E].
    + right. exists (S n). split; [|lia].
      split; [lia|]. split; [exact E|].
      intros i Hi. apply Hall. lia.
    + left. intros i Hi.
      destruct (decide (i = S n)) as [->|Hne]; [exact E|].
      apply Hall. lia.
  - right. exists g. split; [exact Hg|lia].
Qed.

(** Every configuration has a first gap, within the fuel. *)
Lemma first_gap_exists (j : Json) :
  exists g, first_gap j g /\ (g <= headerScan_fuel j)%nat.
Proof.
  destruct (first_gap_search j (headerScan_fuel j)) as [Hall|H]; [|exact H].
  exfalso. destruct j as [m|v]; cbn [headerScan_fuel] in Hall.
  - apply named_indices_bound in Hall. lia.
  - apply (Hall 1%nat); [lia|]. reflexivity.
Qed.

(** The scan ends before its fuel does. *)
Lemma first_gap_fuel (j : Json) (g : nat) :
  first_gap j g -> (g - 1 < headerScan_fuel j)%nat.
Proof.
  intros (Hg & Hgap & Hnames). destruct j as [m|v]; cbn [headerScan_fuel].
  - assert (g - 1 <= size m)%nat; [|lia].
    apply (named_indices_bound m 1). intros i Hi. apply Hnames. lia.
  - destruct (decide (g = 1%nat)) as [->|Hne]; [lia|].
    exfalso. apply (Hnames 1%nat); [lia|reflexivity].
Qed.

(** The first gap is unique. *)
Lemma first_gap_unique (j : Json) (g g' : nat) :
  first_gap j g -> first_gap j g' -> g = g'.
Proof.
  intros (Hg & Hgap & Hnames) (Hg' & Hgap' & Hnames').
  destruct (lt_eq_lt_dec g g') as [[Hlt|Heq]|Hlt]; [|exact Heq|].
  - exfalso. apply (Hnames' g); [lia|exact Hgap].
  - exfalso. apply (Hnames g'); [lia|exact Hgap'].
Qed.

(** The result of the loop, from the first gap. *)
Lemma headerScan_first_gap (j : Json) (decrypted : gmap string string) (g : nat) :
  first_gap j g ->
  headerScan j decrypted (headerScan_fuel j) 1 ∅ =
  Some (headers_of j decrypted (seq 1 (g - 1))).
Proof.
  intros Hfg. pose proof (first_gap_fuel _ _ Hfg) as Hfuel.
  destruct Hfg as (Hg & Hgap & Hnames).
  apply headerScan_run.
  - intros i Hi. apply Hnames. lia.
  - replace (1 + (g - 1))%nat with g by lia. exact Hgap.
  - exact Hfuel.
Qed.

(** An index whose value key is missing contributes nothing. *)
Lemma apply_header_no_value (j : Json) (decrypted headers : gmap string string)
    (n : nat) :
  decrypted !! headerValueKey n = None ->
  apply_header j decrypted headers n = headers.
Proof. intros H. unfold apply_header. rewrite H. reflexivity. Qed.

Section Properties.

Context {ext : Externals}.

Implicit Types (ds : DataSource) (w : World).

(** *** [getCustomHeaders] *)

Lemma getCustomHeaders_nil ds w :
  JsonData ds = None -> getCustomHeaders ds w = (Returned ∅, w).
Proof. intros H. unfold getCustomHeaders. rewrite H. reflexivity. Qed.

Lemma getCustomHeaders_first_gap ds w (j : Json) (g : nat) :
  JsonData ds = Some j ->
  first_gap j g ->
  getCustomHeaders ds w =
  (Returned (headers_of j (Decrypt (SecureJsonData ds)) (seq 1 (g - 1))),
   log_Decrypt (SecureJsonData ds) w).
Proof.
  intros Hj Hfg. unfold getCustomHeaders. rewrite Hj.
  unfold bind, call_Decrypt, ret.
  rewrite (headerScan_first_gap _ _ _ Hfg). reflexivity.
Qed.

(** The headers of a list of indices depend on the names and values of
    those indices only. *)
Lemma headers_of_ext (j j' : Json) (decrypted decrypted' : gmap string string)
    (indices : list nat) :
  (forall i, i ∈ indices -> headerName j' i = headerName j i) ->
  (forall i, i ∈ indices ->
     decrypted' !! headerValueKey i = decrypted !! headerValueKey i) ->
  headers_of j' decrypted' indices = headers_of j decrypted indices.
Proof.
  unfold headers_of. generalize (∅ : gmap string string).
  induction indices as [|i l IH]; intros h Hn Hv; [reflexivity|].
  cbn [foldl].
  replace (apply_header j' decrypted' h i) with (apply_header j decrypted h i).
  - apply IH; intros i' Hi'; [apply Hn|apply Hv]; now right.
  - unfold apply_header. rewrite Hn, Hv by left. reflexivity.
Qed.

(** C4.  The custom-header scan starts at index 1 and stops at the first
    index whose header name is absent or empty.  There always is such a
    first gap; the result is made of the indices below it only, and is the
    same for any resource that agrees on the names up to the gap and on
    the values below it, whatever either has beyond.  In particular, with
    names at indices 1 and 3 but none at 2, the result holds at most the
    index-1 header (its name with its decrypted value), whatever is
    configured at index 3. *)
Theorem getCustomHeaders_stops_at_first_gap ds w (j : Json) :
  JsonData ds = Some j ->
  (exists g, first_gap j g /\
     fst (getCustomHeaders ds w) =
       Returned (headers_of j (Decrypt (SecureJsonData ds)) (seq 1 (g - 1))) /\
     forall ds' (j' : Json),
       JsonData ds' = Some j' ->
       (forall i, (1 <= i <= g)%nat -> headerName j' i = headerName j i) ->
       (forall i, (1 <= i < g)%nat ->
          Decrypt (SecureJsonData ds') !! headerValueKey i =
          Decrypt (SecureJsonData ds) !! headerValueKey i) ->
       fst (getCustomHeaders ds' w) = fst (getCustomHeaders ds w)) /\
  (headerName j 1 <> "" -> headerName j 2 = "" -> headerName j 3 <> "" ->
     fst (getCustomHeaders ds w) =
     Returned
       match Decrypt (SecureJsonData ds) !! "httpHeaderValue1" with
       | Some val => {[ headerName j 1 := val ]}
       | None => ∅
       end).
Proof.
  intros Hj. split.
  - destruct (first_gap_exists j) as (g & Hfg & _). exists g.
    split; [exact Hfg|].
    rewrite (getCustomHeaders_first_gap _ _ _ _ Hj Hfg).
    split; [reflexivity|].
    intros ds' j' Hj' Hnames Hvalues.
    assert (Hfg' : first_gap j' g).
    { destruct Hfg as (Hg & Hgap & Hnamed).
      split; [exact Hg|]. split; [rewrite Hnames by lia; exact Hgap|].
      intros i Hi. rewrite Hnames by lia. apply Hnamed, Hi. }
    rewrite (getCustomHeaders_first_gap _ _ _ _ Hj' Hfg'). cbn [fst].
    f_equal. apply headers_of_ext; intros i Hi; apply elem_of_seq in Hi;
      [apply Hnames|apply Hvalues]; lia.
  - intros H1 H2 _.
    assert (Hfg : first_gap j 2).
    { split; [lia|]. split; [exact H2|].
      intros i Hi. replace i with 1%nat by lia. exact H1. }
    rewrite (getCustomHeaders_first_gap _ _ _ _ Hj Hfg). cbn [fst].
    f_equal.
Qed.

(** C10.  In the custom-header scan, an index whose header name is present
    and non-empty but whose value key is missing from the decrypted
    secrets adds nothing to the result, and the scan goes on with the next
    index: only a missing name ends the scan. *)
Theorem getCustomHeaders_skips_missing_value ds w (j : Json) (g n : nat) :
  JsonData ds = Some j ->
  first_gap j g ->
  (1 <= n < g)%nat ->
  Decrypt (SecureJsonData ds) !! headerValueKey n = None ->
  headerName j n <> "" /\
  (forall fuel headers,
     headerScan j (Decrypt (SecureJsonData ds)) (S fuel) n headers =
     headerScan j (Decrypt (SecureJsonData ds)) fuel (S n) headers) /\
  fst (getCustomHeaders ds w) =
  Returned (headers_of j (Decrypt (SecureJsonData ds))
              (seq 1 (n - 1) ++ seq (S n) (g - 1 - n))).
Proof.
  intros Hj Hfg Hn Hval.
  assert (Hname : headerName j n <> "") by (apply Hfg; exact Hn).
  split; [exact Hname|]. split.
  - intros fuel headers. rewrite headerScan_continue by exact Hname.
    rewrite apply_header_no_value by exact Hval. reflexivity.
  - rewrite (getCustomHeaders_first_gap _ _ _ _ Hj Hfg). cbn [fst].
    f_equal. unfold headers_of.
    assert (Hsplit : seq 1 (g - 1) =
                     seq 1 (n - 1) ++ n :: seq (S n) (g - 1 - n)).
    { replace (g - 1)%nat with ((n - 1) + S (g - 1 - n))%nat at 1 by lia.
      rewrite seq_app. replace (1 + (n - 1))%nat with n by lia.
      reflexivity. }
    rewrite Hsplit, !foldl_app. cbn [foldl].
    rewrite apply_header_no_value by exact Hval. reflexivity.
Qed.

(** *** Calls that leave the transport cache and the arenas alone *)

Lemma same_store_refl w : same_store w w.
Proof. repeat split. Qed.

Lemma same_store_log_Decrypt s w : same_store w (log_Decrypt s w).
Proof. repeat split. Qed.

Lemma same_store_set_dsDecryptionCache c w :
  same_store w (set_dsDecryptionCache c w).
Proof. repeat split. Qed.

(** *** [GetTLSConfig] *)

(** The outcome of [GetTLSConfig] does not depend on the state: it always
    returns, with the same result for the same resource; the state changes
    by at most one recorded decrypt call. *)
Lemma GetTLSConfig_cases ds w :
  exists r w1,
    GetTLSConfig ds w = (Returned r, w1) /\
    (w1 = w \/ w1 = log_Decrypt (SecureJsonData ds) w) /\
    (forall w2, fst (GetTLSConfig ds w2) = Returned r).
Proof.
  unfold GetTLSConfig, bind, call_Decrypt, ret.
  destruct (_ || _); [|eauto 6].
  destruct (tls_ca_step _ _ _); cbn; eauto 6.
Qed.

(** A failing [GetTLSConfig] has consulted the secret store. *)
Lemma GetTLSConfig_error ds w e w1 :
  GetTLSConfig ds w = (Returned (inr e), w1) ->
  w1 = log_Decrypt (SecureJsonData ds) w.
Proof.
  unfold GetTLSConfig, bind, call_Decrypt, ret.
  destruct (_ || _); [|intros [=]].
  destruct (tls_ca_step _ _ _); intros [=]; subst; reflexivity.
Qed.

Lemma GetTLSConfig_same_store ds w :
  same_store w (snd (GetTLSConfig ds w)).
Proof.
  destruct (GetTLSConfig_cases ds w) as (r & w1 & -> & [->| ->] & _);
    cbn [snd]; [apply same_store_refl|apply same_store_log_Decrypt].
Qed.

Lemma tls_ca_step_Renegotiation b decrypted (c c' : tls_Config) :
  tls_ca_step b decrypted c = inl c' -> Renegotiation c' = Renegotiation c.
Proof.
  unfold tls_ca_step. destruct (_ && _); [|intros [= <-]; reflexivity].
  destruct (AppendCertsFromPEM _ _) as [pool ok].
  destruct (negb ok); intros [= <-]. reflexivity.
Qed.

Lemma tls_client_step_Renegotiation b decrypted (c c' : tls_Config) :
  tls_client_step b decrypted c = inl c' -> Renegotiation c' = Renegotiation c.
Proof.
  unfold tls_client_step. destruct b; [|intros [= <-]; reflexivity].
  destruct (X509KeyPair _ _); intros [= <-]. reflexivity.
Qed.

(** On its own, [GetTLSConfig] leaves [Renegotiation] at its zero value. *)
Lemma GetTLSConfig_Renegotiation ds w (c : tls_Config) :
  fst (GetTLSConfig ds w) = Returned (inl c) ->
  Renegotiation c = RenegotiateNever.
Proof.
  unfold GetTLSConfig, bind, call_Decrypt, ret.
  destruct (_ || _); [|intros [= <-]; reflexivity].
  destruct (tls_ca_step _ _ _) as [c1|e] eqn:Eca; cbn [fst]; [|intros [=]].
  intros [= Ecl]. apply tls_client_step_Renegotiation in Ecl.
  apply tls_ca_step_Renegotiation in Eca. cbn in Eca. congruence.
Qed.

(** *** The decryption cache *)

Lemma DecryptedValues_hit ds w (item : cachedDecryptedJSON) :
  lookup_valid cd_updated (dsDecryptionCache w) ds = Some item ->
  DecryptedValues ds w = (Returned (json item), w).
Proof.
  intros H. unfold DecryptedValues, bind, get_World. rewrite H. reflexivity.
Qed.

Lemma DecryptedValues_miss ds w :
  lookup_valid cd_updated (dsDecryptionCache w) ds = None ->
  DecryptedValues ds w =
  (Returned (Decrypt (SecureJsonData ds)),
   set_dsDecryptionCache
     (<[Id ds := {| cd_updated := Updated ds;
                    json := Decrypt (SecureJsonData ds) |}]>
        (dsDecryptionCache w))
     (log_Decrypt (SecureJsonData ds) w)).
Proof.
  intros H. unfold DecryptedValues, bind, get_World. rewrite H. reflexivity.
Qed.

(** [DecryptedValues] always returns, and touches neither the transport
    cache nor the arenas. *)
Lemma DecryptedValues_returns ds w :
  exists v w1, DecryptedValues ds w = (Returned v, w1) /\ same_store w w1.
Proof.
  destruct (lookup_valid cd_updated (dsDecryptionCache w) ds) as [item|] eqn:E.
  - rewrite (DecryptedValues_hit _ _ _ E). eauto using same_store_refl.
  - rewrite (DecryptedValues_miss _ _ E). do 2 eexists. split; [reflexivity|].
    repeat split.
Qed.

Lemma lookup_valid_Some {E} (upd : E -> Z) (cache : gmap Z E) ds (t : E) :
  lookup_valid upd cache ds = Some t <->
  cache !! Id ds = Some t /\ Updated ds = upd t.
Proof.
  unfold lookup_valid, time_Equal. destruct (cache !! Id ds) as [t'|].
  - destruct (Z.eqb_spec (Updated ds) (upd t')) as [Heq|Hne].
    + split; [intros [= ->]; auto|intros [[= ->] _]; reflexivity].
    + split; [intros [=]|intros [[= ->] Heq]; contradiction].
  - split; [intros [=]|intros [[=] _]].
Qed.

Lemma lookup_valid_None {E} (upd : E -> Z) (cache : gmap Z E) ds :
  lookup_valid upd cache ds = None <->
  forall t, cache !! Id ds = Some t -> Updated ds <> upd t.
Proof.
  unfold lookup_valid, time_Equal. destruct (cache !! Id ds) as [t'|].
  - destruct (Z.eqb_spec (Updated ds) (upd t')) as [Heq|Hne].
    + split; [intros [=]|intros H; destruct (H t' eq_refl Heq)].
    + split; [intros _ t [= <-]; exact Hne|reflexivity].
  - split; [intros _ t [=]|reflexivity].
Qed.


(** *** The build path of [GetHttpTransport] *)

Lemma getCustomHeaders_cases ds w :
  exists h w1,
    getCustomHeaders ds w = (Returned h, w1) /\
    (w1 = w \/ w1 = log_Decrypt (SecureJsonData ds) w) /\
    (forall w2, fst (getCustomHeaders ds w2) = Returned h).
Proof.
  unfold getCustomHeaders. destruct (JsonData ds) as [j|].
  - unfold bind, call_Decrypt, ret. eauto 6.
  - unfold ret. eauto 6.
Qed.

(** The value of [DecryptedValues] depends on the decryption cache only. *)
Lemma DecryptedValues_fst ds w w' :
  dsDecryptionCache w' = dsDecryptionCache w ->
  fst (DecryptedValues ds w') = fst (DecryptedValues ds w).
Proof.
  intros H. unfold DecryptedValues, bind, get_World. rewrite H.
  destruct (lookup_valid _ _ _); reflexivity.
Qed.

Lemma sigV4_enabled_JsonData ds :
  sigV4_enabled ds = true ->
  exists j, JsonData ds = Some j /\ MustBool (Get j "sigV4Auth") = true /\
            SigV4AuthEnabled setting = true.
Proof.
  unfold sigV4_enabled. destruct (JsonData ds) as [j|]; [|intros [=]].
  intros H. apply andb_true_iff in H. eauto.
Qed.

Local Ltac build_prefix ds w Htls :=
  unfold GetHttpTransport_build, bind;
  let r := fresh "r" in let w1 := fresh "w1" in
  let E1 := fresh "E1" in let Hw1 := fresh "Hw1" in
  let h := fresh "h" in let w2 := fresh "w2" in
  let E2 := fresh "E2" in let Hw2 := fresh "Hw2" in
  let Hh := fresh "Hh" in
  destruct (GetTLSConfig_cases ds w) as (r & w1 & E1 & Hw1 & _);
  rewrite E1 in Htls |- *; cbn [fst] in Htls; injection Htls as ->;
  destruct (getCustomHeaders_cases ds w1) as (h & w2 & E2 & Hw2 & Hh);
  rewrite E2; unfold new_Transport;
  assert (same_store w w2 /\ dsDecryptionCache w2 = dsDecryptionCache w)
    as ((Hptc2 & Hhand2 & Htran2) & Hdsc2)
    by (destruct Hw1 as [->| ->], Hw2 as [->| ->]; repeat split);
  exists h; split; [apply Hh|].

Lemma build_tls_error ds w (e : error) :
  fst (GetTLSConfig ds w) = Returned (inr e) ->
  GetHttpTransport_build ds w =
  (Returned (inr e), log_Decrypt (SecureJsonData ds) w).
Proof.
  intros Htls. unfold GetHttpTransport_build, bind.
  destruct (GetTLSConfig ds w) as [o w1] eqn:E1. cbn [fst] in Htls. subst o.
  apply GetTLSConfig_error in E1 as ->. reflexivity.
Qed.

(** A build without signing. *)
Lemma build_unsigned ds w (cfg : tls_Config) :
  fst (GetTLSConfig ds w) = Returned (inl cfg) ->
  sigV4_enabled ds = false ->
  exists h, fst (getCustomHeaders ds w) = Returned h /\
  exists w',
    GetHttpTransport_build ds w = (Returned (inl (length (handlers w))), w') /\
    transports w' = transports w ++ [built_Transport ds cfg] /\
    handlers w' = handlers w ++
      [{| datasourceName := Name ds; headers := h;
          transport := length (transports w);
          next := RT_Transport (length (transports w)) |}] /\
    ptc w' = <[Id ds := built_entry ds w]> (ptc w).
Proof.
  intros Htls Hs. build_prefix ds w Htls. rewrite Hs.
  unfold ret, new_dataSourceTransport, ptc_store, built_entry. cbn.
  rewrite Hptc2, Hhand2, Htran2.
  eexists. split; [reflexivity|]. cbn.
  rewrite ?Hptc2, ?Hhand2, ?Htran2. repeat split.
Qed.

(** A build with signing, for a recognized type. *)
Lemma build_signed ds w (cfg : tls_Config) (service : string) (j : Json) :
  fst (GetTLSConfig ds w) = Returned (inl cfg) ->
  sigV4_enabled ds = true ->
  awsServiceNamespace (Type_ ds) = Returned service ->
  JsonData ds = Some j ->
  exists h, fst (getCustomHeaders ds w) = Returned h /\
  exists decrypted w',
    fst (DecryptedValues ds w) = Returned decrypted /\
    GetHttpTransport_build ds w = (Returned (inl (length (handlers w))), w') /\
    transports w' = transports w ++ [built_Transport ds cfg] /\
    handlers w' = handlers w ++
      [{| datasourceName := Name ds; headers := h;
          transport := length (transports w);
          next := RT_SigV4 (sigv4_Config_of service decrypted j)
                    (RT_Transport (length (transports w))) |}] /\
    ptc w' = <[Id ds := built_entry ds w]> (ptc w).
Proof.
  intros Htls Hs Hns Hj. build_prefix ds w Htls. rewrite Hs.
  cbv beta iota. fold (built_Transport ds cfg).
  set (w3 := alloc_Transport (built_Transport ds cfg) w2).
  unfold sigV4Middleware, bind, lift, deref_JsonData.
  destruct (DecryptedValues_returns ds w3) as (dec & w4 & E4 & (H4p & H4h & H4t)).
  assert (Hdec : fst (DecryptedValues ds w) = Returned dec).
  { rewrite <- (DecryptedValues_fst ds w w3) by exact Hdsc2.
    rewrite E4. reflexivity. }
  rewrite E4, Hns, Hj.
  unfold ret, new_dataSourceTransport, ptc_store, built_entry.
  cbv beta iota. exists dec. eexists. split; [exact Hdec|].
  split; [rewrite H4h; cbn [handlers w3 alloc_Transport]; rewrite Hhand2;
          reflexivity|].
  cbn. rewrite H4t, H4h, H4p. cbn. rewrite Htran2, Hhand2, Hptc2.
  repeat split.
Qed.

(** A build with signing, for a type that is not recognized: the panic of
    [awsServiceNamespace] ends the call before anything is stored. *)
Lemma build_panics ds w (cfg : tls_Config) (v : panic_value) :
  fst (GetTLSConfig ds w) = Returned (inl cfg) ->
  sigV4_enabled ds = true ->
  awsServiceNamespace (Type_ ds) = Panicked v ->
  exists h, fst (getCustomHeaders ds w) = Returned h /\
  exists w',
    GetHttpTransport_build ds w = (Panicked v, w') /\
    transports w' = transports w ++ [built_Transport ds cfg] /\
    handlers w' = handlers w /\
    ptc w' = ptc w.
Proof.
  intros Htls Hs Hns. build_prefix ds w Htls. rewrite Hs.
  cbv beta iota. fold (built_Transport ds cfg).
  set (w3 := alloc_Transport (built_Transport ds cfg) w2).
  unfold sigV4Middleware, bind, lift.
  destruct (DecryptedValues_returns ds w3) as (dec & w4 & E4 & (H4p & H4h & H4t)).
  rewrite E4, Hns. eexists. split; [reflexivity|].
  rewrite H4p, H4h, H4t. cbn. rewrite Hptc2, Hhand2, Htran2. repeat split.
Qed.

(** *** [GetHttpTransport]: hit and miss *)

Lemma GetHttpTransport_hit ds w (t : cachedTransport) :
  lookup_valid updated (ptc w) ds = Some t ->
  GetHttpTransport ds w = (Returned (inl (handler t)), w).
Proof.
  intros H. unfold GetHttpTransport, bind, get_World. rewrite H. reflexivity.
Qed.

Lemma GetHttpTransport_miss ds w :
  lookup_valid updated (ptc w) ds = None ->
  GetHttpTransport ds w = GetHttpTransport_build ds w.
Proof.
  intros H. unfold GetHttpTransport, bind, get_World. rewrite H. reflexivity.
Qed.

Lemma GetHttpClient_world ds w :
  snd (GetHttpClient ds w) = snd (GetHttpTransport ds w).
Proof.
  unfold GetHttpClient, bind.
  destruct (GetHttpTransport ds w) as [[[p|e]|v] w1]; reflexivity.
Qed.

(** What a build does to the transport cache and to the arenas, whatever
    its outcome: it may allocate one base transport, which permits
    renegotiation; then either it fails, storing nothing, or it allocates
    one handler at a fresh address, stores it under the resource id and
    returns it. *)
Lemma build_effect ds w :
  let o := fst (GetHttpTransport_build ds w) in
  let w' := snd (GetHttpTransport_build ds w) in
  (exists ts, transports w' = transports w ++ ts /\
     Forall (fun T => Renegotiation (TLSClientConfig T) =
                      RenegotiateFreelyAsClient) ts) /\
  ((handlers w' = handlers w /\ ptc w' = ptc w /\
    forall p, o <> Returned (inl p)) \/
   (exists d, handlers w' = handlers w ++ [d] /\
      transport d = length (transports w) /\
      (length (transports w) < length (transports w'))%nat /\
      ptc w' = <[Id ds := built_entry ds w]> (ptc w) /\
      o = Returned (inl (length (handlers w))))).
Proof.
  cbn zeta.
  destruct (GetTLSConfig_cases ds w) as ([cfg|e] & w1 & E1 & _ & _).
  - assert (Htls : fst (GetTLSConfig ds w) = Returned (inl cfg))
      by (rewrite E1; reflexivity).
    assert (Hreneg : Forall (fun T => Renegotiation (TLSClientConfig T) =
                               RenegotiateFreelyAsClient)
                       [built_Transport ds cfg])
      by (repeat constructor).
    destruct (sigV4_enabled ds) eqn:Hs.
    + destruct (awsServiceNamespace (Type_ ds)) as [service|v] eqn:Hns.
      * destruct (sigV4_enabled_JsonData ds Hs) as (j & Hj & _).
        destruct (build_signed ds w cfg service j Htls Hs Hns Hj)
          as (h & _ & dec & w' & _ & -> & Ht & Hh & Hp).
        cbn [fst snd]. split; [eauto|]. right. eexists.
        split; [exact Hh|]. split; [reflexivity|].
        rewrite Ht, length_app. cbn. split; [lia|]. split; [exact Hp|].
        reflexivity.
      * destruct (build_panics ds w cfg v Htls Hs Hns)
          as (h & _ & w' & -> & Ht & Hh & Hp).
        cbn [fst snd]. split; [eauto|]. left.
        split; [exact Hh|]. split; [exact Hp|]. intros p [=].
    + destruct (build_unsigned ds w cfg Htls Hs)
        as (h & _ & w' & -> & Ht & Hh & Hp).
      cbn [fst snd]. split; [eauto|]. right. eexists.
      split; [exact Hh|]. split; [reflexivity|].
      rewrite Ht, length_app. cbn. split; [lia|]. split; [exact Hp|].
      reflexivity.
  - assert (Htls : fst (GetTLSConfig ds w) = Returned (inr e))
      by (rewrite E1; reflexivity).
    rewrite (build_tls_error ds w e Htls). cbn [fst snd].
    split; [exists []; split; [cbn; symmetry; apply app_nil_r|constructor]|].
    left. repeat split. intros p [=].
Qed.

(** *** Invariants of the reachable states *)

(** What [GetHttpTransport] does to the transport cache and the arenas. *)
Lemma GetHttpTransport_effect ds w :
  let o := fst (GetHttpTransport ds w) in
  let w' := snd (GetHttpTransport ds w) in
  (exists ts, transports w' = transports w ++ ts /\
     Forall (fun T => Renegotiation (TLSClientConfig T) =
                      RenegotiateFreelyAsClient) ts) /\
  ((handlers w' = handlers w /\ ptc w' = ptc w /\
    forall p, o = Returned (inl p) ->
      exists t, ptc w !! Id ds = Some t /\ handler t = p) \/
   (exists d, handlers w' = handlers w ++ [d] /\
      transport d = length (transports w) /\
      (length (transports w) < length (transports w'))%nat /\
      ptc w' = <[Id ds := built_entry ds w]> (ptc w) /\
      o = Returned (inl (length (handlers w))))).
Proof.
  cbn zeta. destruct (lookup_valid updated (ptc w) ds) as [t|] eqn:E.
  - rewrite (GetHttpTransport_hit _ _ _ E). cbn [fst snd].
    split; [exists []; split; [symmetry; apply app_nil_r|constructor]|].
    left. repeat split. intros p [= <-].
    apply lookup_valid_Some in E as [E _]. eauto.
  - rewrite (GetHttpTransport_miss _ _ E).
    destruct (build_effect ds w) as [Ht [(Hh & Hp & Ho)|Hb]].
    + split; [exact Ht|]. left. split; [exact Hh|]. split; [exact Hp|].
      intros p Hp'. destruct (Ho p Hp').
    + split; [exact Ht|]. right. exact Hb.
Qed.

(** Calls other than [GetHttpTransport] and [GetHttpClient] leave the
    transport cache and the arenas alone. *)
Lemma exec_effect (c : call) w :
  same_store w (exec c w) \/
  exists ds, exec c w = snd (GetHttpTransport ds w).
Proof.
  destruct c as [ds|ds|ds|ds|ds key|]; cbn [exec].
  - right. eauto.
  - right. exists ds. apply GetHttpClient_world.
  - left. apply GetTLSConfig_same_store.
  - left. destruct (DecryptedValues_returns ds w) as (v & w1 & -> & H).
    exact H.
  - left. unfold DecryptedValue, bind.
    destruct (DecryptedValues_returns ds w) as (v & w1 & -> & H). exact H.
  - left. apply same_store_set_dsDecryptionCache.
Qed.

Lemma handlers_valid_exec (c : call) w :
  handlers_valid w -> handlers_valid (exec c w).
Proof.
  intros Hv. destruct (exec_effect c w) as [(Hp & Hh & _)|(ds & ->)].
  - intros id t. rewrite Hp, Hh. apply Hv.
  - destruct (GetHttpTransport_effect ds w)
      as [_ [(Hh & Hp & _)|(d & Hh & _ & _ & Hp & _)]].
    + intros id t. rewrite Hp, Hh. apply Hv.
    + intros id t. rewrite Hp, Hh, length_app. cbn.
      destruct (decide (id = Id ds)) as [->|Hne].
      * rewrite lookup_insert_eq. intros [= <-]. cbn. lia.
      * rewrite lookup_insert_ne by congruence. intros H.
        apply Hv in H. lia.
Qed.

Lemma transports_ok_exec (c : call) w :
  transports_ok w -> transports_ok (exec c w).
Proof.
  intros [Hd HT]. destruct (exec_effect c w) as [(_ & Hh & Ht)|(ds & ->)].
  - split; [intros p d|intros q T]; rewrite ?Hh, Ht; [apply Hd|apply HT].
  - destruct (GetHttpTransport_effect ds w) as [(ts & Ht & Hts) Hcase].
    split.
    + intros p d Hpd.
      destruct Hcase as [(Hh & _ & _)|(d' & Hh & Htd & Hlt & _ & _)].
      * rewrite Hh in Hpd. apply Hd in Hpd. rewrite Ht, length_app. lia.
      * rewrite Hh in Hpd. apply lookup_app_Some in Hpd as [Hpd|[_ Hpd]].
        -- apply Hd in Hpd. lia.
        -- apply list_lookup_singleton_Some in Hpd as [_ <-]. lia.
    + intros q T. rewrite Ht. intros HqT.
      apply lookup_app_Some in HqT as [HqT|[_ HqT]]; [exact (HT _ _ HqT)|].
      rewrite Forall_forall in Hts. apply Hts.
      apply list_elem_of_lookup. eauto.
Qed.

Lemma retired_exec (id : Z) (old : loc) (c : call) w :
  retired id old w -> retired id old (exec c w).
Proof.
  intros [Hold Hne]. destruct (exec_effect c w) as [(Hp & Hh & _)|(ds & ->)].
  - split; [rewrite Hh; exact Hold|]. intros t. rewrite Hp. apply Hne.
  - destruct (GetHttpTransport_effect ds w)
      as [_ [(Hh & Hp & _)|(d & Hh & _ & _ & Hp & _)]].
    + split; [rewrite Hh; exact Hold|]. intros t. rewrite Hp. apply Hne.
    + split; [rewrite Hh, length_app; lia|]. intros t. rewrite Hp.
      destruct (decide (id = Id ds)) as [->|Hneq].
      * rewrite lookup_insert_eq. intros [= <-]. cbn. lia.
      * rewrite lookup_insert_ne by congruence. apply Hne.
Qed.

Lemma run_invariant (P : World -> Prop) :
  (forall c w, P w -> P (exec c w)) ->
  forall cs w, P w -> P (run cs w).
Proof.
  intros Hstep cs. induction cs as [|c cs IH]; intros w Hw; [exact Hw|].
  cbn. apply IH, Hstep, Hw.
Qed.

Lemma run_snoc (cs : list call) (c : call) w :
  run (cs ++ [c]) w = exec c (run cs w).
Proof. unfold run. rewrite foldl_app. reflexivity. Qed.

Lemma reachable_exec (c : call) w : reachable w -> reachable (exec c w).
Proof.
  intros (cs & ->). exists (cs ++ [c]). symmetry. apply run_snoc.
Qed.

Lemma reachable_invariant (P : World -> Prop) :
  P initWorld ->
  (forall c w, P w -> P (exec c w)) ->
  forall w, reachable w -> P w.
Proof.
  intros Hinit Hstep w (cs & ->). now apply run_invariant.
Qed.

Lemma reachable_handlers_valid w : reachable w -> handlers_valid w.
Proof.
  apply reachable_invariant; [|apply handlers_valid_exec].
  intros id t H. cbn in H. rewrite lookup_empty in H. discriminate.
Qed.

Lemma reachable_transports_ok w : reachable w -> transports_ok w.
Proof.
  apply reachable_invariant; [|apply transports_ok_exec].
  split; [intros p d H|intros q T H]; cbn in H; discriminate.
Qed.

(** *** Recognized types *)

Lemma awsServiceNamespace_recognized (dsType : string) :
  recognized dsType ->
  exists service, awsServiceNamespace dsType = Returned service /\
                  (service = "es" \/ service = "aps").
Proof.
  unfold recognized, awsServiceNamespace. intros H.
  repeat case_bool_decide; cbn; eauto. exfalso. tauto.
Qed.

Lemma awsServiceNamespace_unrecognized (dsType : string) :
  ~ recognized dsType ->
  awsServiceNamespace dsType = Panicked (UnsupportedDatasource dsType).
Proof.
  unfold recognized, awsServiceNamespace. intros H.
  repeat case_bool_decide; cbn; tauto.
Qed.

Lemma sigV4_enabled_true ds (j : Json) :
  JsonData ds = Some j ->
  MustBool (Get j "sigV4Auth") = true ->
  SigV4AuthEnabled setting = true ->
  sigV4_enabled ds = true.
Proof.
  intros Hj Hflag Hgate. unfold sigV4_enabled. rewrite Hj, Hflag, Hgate.
  reflexivity.
Qed.

(** *** The claims about [GetHttpTransport] and [GetTLSConfig] *)

(** C1, as amended.  Take a resource whose configuration enables request
    signing and whose type is not recognized, with signing enabled
    process-wide, and no valid cache entry for it.  Then [GetHttpTransport]
    fails at build time: it never returns a handler and stores nothing in
    the transport cache.  When the TLS configuration builds, the failure is
    the panic "Unsupported datasource" raised by [awsServiceNamespace],
    not a returned error value; when it does not, the TLS error is
    returned. *)
Theorem GetHttpTransport_unrecognized_type_panics ds w (j : Json) :
  JsonData ds = Some j ->
  MustBool (Get j "sigV4Auth") = true ->
  SigV4AuthEnabled setting = true ->
  ~ recognized (Type_ ds) ->
  lookup_valid updated (ptc w) ds = None ->
  let o := fst (GetHttpTransport ds w) in
  let w' := snd (GetHttpTransport ds w) in
  (forall p, o <> Returned (inl p)) /\
  ptc w' = ptc w /\ handlers w' = handlers w /\
  (forall cfg : tls_Config,
     fst (GetTLSConfig ds w) = Returned (inl cfg) ->
     o = Panicked (UnsupportedDatasource (Type_ ds))) /\
  (forall e, fst (GetTLSConfig ds w) = Returned (inr e) ->
     o = Returned (inr e)).
Proof.
  intros Hj Hflag Hgate Hun Hmiss. cbn zeta.
  rewrite (GetHttpTransport_miss _ _ Hmiss).
  pose proof (sigV4_enabled_true _ _ Hj Hflag Hgate) as Hs.
  pose proof (awsServiceNamespace_unrecognized _ Hun) as Hns.
  destruct (GetTLSConfig_cases ds w) as ([cfg|e] & w1 & E1 & _ & _).
  - assert (Htls : fst (GetTLSConfig ds w) = Returned (inl cfg))
      by (rewrite E1; reflexivity).
    destruct (build_panics ds w cfg _ Htls Hs Hns)
      as (h & _ & w' & -> & _ & Hh & Hp).
    cbn [fst snd]. rewrite Htls.
    split; [intros p [=]|]. split; [exact Hp|]. split; [exact Hh|].
    split; [reflexivity|]. intros e [=].
  - assert (Htls : fst (GetTLSConfig ds w) = Returned (inr e))
      by (rewrite E1; reflexivity).
    rewrite (build_tls_error ds w e Htls). cbn [fst snd]. rewrite Htls.
    split; [intros p [=]|]. split; [reflexivity|]. split; [reflexivity|].
    split; [intros cfg [=]|]. intros e' [= <-]. reflexivity.
Qed.

(** C2.  When the transport cache holds an entry for the resource id whose
    stored timestamp equals the resource's [Updated], [GetHttpTransport]
    returns the cached handler pointer and leaves the whole state as it
    was: nothing is allocated, the secret store is not consulted, the
    cache is not written.  So does every repeated call. *)
Theorem GetHttpTransport_cached_handler_stable ds w (t : cachedTransport) :
  ptc w !! Id ds = Some t ->
  Updated ds = updated t ->
  forall n : nat,
    let wn := Nat.iter n (fun w => snd (GetHttpTransport ds w)) w in
    wn = w /\
    GetHttpTransport ds wn = (Returned (inl (handler t)), w).
Proof.
  intros Hentry Hupd.
  assert (Hhit : GetHttpTransport ds w = (Returned (inl (handler t)), w)).
  { apply GetHttpTransport_hit, lookup_valid_Some. auto. }
  intros n. cbn zeta. induction n as [|n [IH _]].
  - split; [reflexivity|exact Hhit].
  - change (Nat.iter (S n) ?f ?x) with (f (Nat.iter n f x)). cbv beta.
    rewrite IH, Hhit. split; [reflexivity|exact Hhit].
Qed.

(** C3, as amended.  In a reachable state whose transport cache holds an
    entry for the resource id with a timestamp different from the
    resource's [Updated], [GetHttpTransport] runs the full build, as on an
    empty cache.  When that build returns a handler, the handler is a
    newly allocated one, the cache entry is replaced by the new handler
    with the new timestamp, and no later call for that resource id, after
    any sequence of calls, returns the previous handler. *)
Theorem GetHttpTransport_stale_entry_rebuilt ds w (t : cachedTransport) :
  reachable w ->
  ptc w !! Id ds = Some t ->
  Updated ds <> updated t ->
  GetHttpTransport ds w = GetHttpTransport_build ds w /\
  forall (p : loc) w',
    GetHttpTransport ds w = (Returned (inl p), w') ->
    p = length (handlers w) /\ p <> handler t /\
    (exists d, handlers w' = handlers w ++ [d]) /\
    ptc w' = <[Id ds := {| updated := Updated ds; handler := p |}]> (ptc w) /\
    forall (cs : list call) ds',
      Id ds' = Id ds ->
      fst (GetHttpTransport ds' (run cs w')) <> Returned (inl (handler t)).
Proof.
  intros Hreach Hentry Hupd.
  assert (Hmiss : lookup_valid updated (ptc w) ds = None).
  { apply lookup_valid_None. intros t' Ht'. congruence. }
  split; [exact (GetHttpTransport_miss _ _ Hmiss)|].
  intros p w' Hcall.
  pose proof (reachable_handlers_valid _ Hreach _ _ Hentry) as Hold.
  rewrite (GetHttpTransport_miss _ _ Hmiss) in Hcall.
  destruct (build_effect ds w) as [_ Hcase].
  rewrite Hcall in Hcase. cbn [fst snd] in Hcase.
  destruct Hcase as [(_ & _ & Ho)|(d & Hh & _ & _ & Hp & Ho)];
    [destruct (Ho p eq_refl)|].
  injection Ho as ->.
  split; [reflexivity|]. split; [lia|]. split; [eauto|].
  split; [exact Hp|].
  intros cs ds' Hid.
  assert (Hret : retired (Id ds) (handler t) (run cs w')).
  { apply (run_invariant (retired (Id ds) (handler t))).
    - intros c w0. apply retired_exec.
    - split; [rewrite Hh, length_app; lia|]. intros t'. rewrite Hp.
      rewrite lookup_insert_eq. intros [= <-]. cbn. lia. }
  destruct Hret as [Hlt Hne].
  destruct (GetHttpTransport_effect ds' (run cs w'))
    as [_ [(_ & _ & Hhit)|(_ & _ & _ & _ & _ & Hnew)]]; intros Hback.
  - destruct (Hhit _ Hback) as (t' & Ht' & Heq).
    rewrite Hid in Ht'. exact (Hne _ Ht' Heq).
  - rewrite Hback in Hnew. injection Hnew as Hnew. lia.
Qed.

(** [sigV4Middleware] resolves the credentials through one
    [DecryptedValues] call and captures them in the signer. *)
Lemma sigV4Middleware_returns ds (nxt : RoundTripper) w
    (j : Json) (service : string) :
  JsonData ds = Some j ->
  awsServiceNamespace (Type_ ds) = Returned service ->
  exists decrypted w1,
    DecryptedValues ds w = (Returned decrypted, w1) /\
    sigV4Middleware ds nxt w =
    (Returned (RT_SigV4 (sigv4_Config_of service decrypted j) nxt), w1).
Proof.
  intros Hj Hns. unfold sigV4Middleware, bind, lift, deref_JsonData.
  destruct (DecryptedValues_returns ds w) as (dec & w1 & E & _).
  rewrite E, Hns, Hj. eauto.
Qed.

(** C5, as amended.  On a build whose TLS configuration succeeds:
    when signing is enabled both in the resource's configuration and
    process-wide and the type is recognized, the handler's next delegate
    is a request signer wrapping the base transport; the signer holds the
    service namespace of the type and the access and secret keys, which
    [sigV4Middleware] reads from a single [DecryptedValues] call, its only
    effect on the state.  When signing is not enabled (in the
    configuration or process-wide), the handler's next delegate is the
    base transport itself. *)
Theorem GetHttpTransport_signer_or_base ds w (cfg : tls_Config) :
  lookup_valid updated (ptc w) ds = None ->
  fst (GetTLSConfig ds w) = Returned (inl cfg) ->
  let p := length (handlers w) in
  let tp := length (transports w) in
  (forall j : Json,
     JsonData ds = Some j ->
     MustBool (Get j "sigV4Auth") = true ->
     SigV4AuthEnabled setting = true ->
     recognized (Type_ ds) ->
     exists service decrypted w' d,
       awsServiceNamespace (Type_ ds) = Returned service /\
       fst (DecryptedValues ds w) = Returned decrypted /\
       GetHttpTransport ds w = (Returned (inl p), w') /\
       handlers w' !! p = Some d /\
       transport d = tp /\
       transports w' !! tp = Some (built_Transport ds cfg) /\
       next d = RT_SigV4 (sigv4_Config_of service decrypted j)
                  (RT_Transport tp) /\
       forall (nxt : RoundTripper) w0,
         exists decrypted0 w1,
           DecryptedValues ds w0 = (Returned decrypted0, w1) /\
           sigV4Middleware ds nxt w0 =
           (Returned (RT_SigV4 (sigv4_Config_of service decrypted0 j) nxt),
            w1)) /\
  (sigV4_enabled ds = false ->
     exists w' d,
       GetHttpTransport ds w = (Returned (inl p), w') /\
       handlers w' !! p = Some d /\
       transport d = tp /\
       transports w' !! tp = Some (built_Transport ds cfg) /\
       next d = RT_Transport tp).
Proof.
  intros Hmiss Htls. cbn zeta.
  rewrite (GetHttpTransport_miss _ _ Hmiss). split.
  - intros j Hj Hflag Hgate Hrec.
    destruct (awsServiceNamespace_recognized _ Hrec) as (service & Hns & _).
    pose proof (sigV4_enabled_true _ _ Hj Hflag Hgate) as Hs.
    destruct (build_signed ds w cfg service j Htls Hs Hns Hj)
      as (h & _ & dec & w' & Hdec & Hb & Ht & Hh & _).
    exists service, dec, w'. eexists.
    split; [exact Hns|]. split; [exact Hdec|]. split; [exact Hb|].
    rewrite Hh, Ht.
    split; [apply list_lookup_middle; reflexivity|].
    split; [reflexivity|].
    split; [apply list_lookup_middle; reflexivity|].
    split; [reflexivity|].
    intros nxt w0. exact (sigV4Middleware_returns ds nxt w0 j service Hj Hns).
  - intros Hs.
    destruct (build_unsigned ds w cfg Htls Hs)
      as (h & _ & w' & Hb & Ht & Hh & _).
    exists w'. eexists. split; [exact Hb|]. rewrite Hh, Ht.
    split; [apply list_lookup_middle; reflexivity|].
    split; [reflexivity|].
    split; [apply list_lookup_middle; reflexivity|reflexivity].
Qed.


Lemma tls_client_step_RootCAs b decrypted (c c' : tls_Config) :
  tls_client_step b decrypted c = inl c' -> RootCAs c' = RootCAs c.
Proof.
  unfold tls_client_step. destruct b; [|intros [= <-]; reflexivity].
  destruct (X509KeyPair _ _); intros [= <-]. reflexivity.
Qed.

Lemma tls_ca_step_RootCAs b decrypted (c c' : tls_Config) (pool : CertPool) :
  tls_ca_step b decrypted c = inl c' ->
  RootCAs c = None ->
  RootCAs c' = Some pool ->
  pool <> [].
Proof.
  unfold tls_ca_step. intros Hstep Hnone Hsome. revert Hstep.
  destruct (_ && _); [|intros [= <-]; congruence].
  unfold AppendCertsFromPEM, NewCertPool.
  destruct (parsePEMCertificates _) as [|cert l]; cbn; intros [= <-].
  cbn in Hsome. injection Hsome as <-. discriminate.
Qed.

(** [GetTLSConfig] never returns a configuration whose trust store is
    empty: [RootCAs] is either left unset or holds a certificate. *)
Lemma GetTLSConfig_RootCAs_nonempty ds w (cfg : tls_Config) (pool : CertPool) :
  fst (GetTLSConfig ds w) = Returned (inl cfg) ->
  RootCAs cfg = Some pool ->
  pool <> [].
Proof.
  unfold GetTLSConfig, bind, call_Decrypt, ret.
  destruct (_ || _); [|intros [= <-]; cbn; discriminate].
  destruct (tls_ca_step _ _ _) as [c1|e] eqn:Eca; cbn [fst]; [|intros [=]].
  intros [= Ecl] Hroot.
  apply tls_client_step_RootCAs in Ecl. rewrite Ecl in Hroot.
  exact (tls_ca_step_RootCAs _ _ _ _ _ Eca eq_refl Hroot).
Qed.

(** C7.  For a resource that requests CA pinning and whose decrypted
    [tlsCACert] is not empty but holds no certificate the PEM parser can
    use, [GetTLSConfig] returns the error "failed to parse TLS CA PEM
    certificate", in every state; it returns no configuration at all, so
    none with an empty trust store. *)
Theorem GetTLSConfig_unparsable_CA ds w (j : Json) :
  JsonData ds = Some j ->
  MustBool (Get j "tlsAuthWithCACert") = true ->
  go_index (Decrypt (SecureJsonData ds)) "tlsCACert" <> "" ->
  parsePEMCertificates (go_index (Decrypt (SecureJsonData ds)) "tlsCACert") = [] ->
  fst (GetTLSConfig ds w) =
    Returned (inr (errors_New "failed to parse TLS CA PEM certificate")) /\
  (forall cfg : tls_Config, fst (GetTLSConfig ds w) <> Returned (inl cfg)) /\
  (forall w2 (cfg : tls_Config) (pool : CertPool),
     fst (GetTLSConfig ds w2) = Returned (inl cfg) ->
     RootCAs cfg = Some pool -> pool <> []).
Proof.
  intros Hj Hflag Hne Hparse.
  assert (Herr : fst (GetTLSConfig ds w) =
            Returned (inr (errors_New "failed to parse TLS CA PEM certificate"))).
  { unfold GetTLSConfig, bind, call_Decrypt, ret. rewrite Hj, Hflag.
    rewrite orb_true_r. unfold tls_ca_step, AppendCertsFromPEM.
    rewrite Hparse.
    destruct (go_index (Decrypt (SecureJsonData ds)) "tlsCACert") as [|a s0];
      [contradiction|].
    reflexivity. }
  split; [exact Herr|]. split.
  - intros cfg. rewrite Herr. intros [=].
  - intros w2 cfg pool. apply GetTLSConfig_RootCAs_nonempty.
Qed.

(** C9.  In every reachable state, a handler returned by
    [GetHttpTransport], cached or just built, carries a base transport
    whose TLS configuration has [Renegotiation] set to
    [RenegotiateFreelyAsClient]; when the handler was just built, that
    configuration is the one [GetTLSConfig] produced, with that field
    set. *)
Theorem GetHttpTransport_permits_renegotiation ds w (p : loc) w' :
  reachable w ->
  GetHttpTransport ds w = (Returned (inl p), w') ->
  exists (d : dataSourceTransport) (T : http_Transport),
    handlers w' !! p = Some d /\
    transports w' !! transport d = Some T /\
    Renegotiation (TLSClientConfig T) = RenegotiateFreelyAsClient /\
    (lookup_valid updated (ptc w) ds = None ->
     exists cfg : tls_Config,
       fst (GetTLSConfig ds w) = Returned (inl cfg) /\
       TLSClientConfig T =
         with_Renegotiation cfg RenegotiateFreelyAsClient).
Proof.
  intros Hreach Hcall.
  assert (Hreach' : reachable w').
  { replace w' with (exec (Call_GetHttpTransport ds) w)
      by (cbn [exec]; rewrite Hcall; reflexivity).
    apply reachable_exec, Hreach. }
  destruct (reachable_transports_ok _ Hreach') as [Hd HT].
  assert (Hp : exists d, handlers w' !! p = Some d).
  { apply lookup_lt_is_Some.
    destruct (GetHttpTransport_effect ds w) as [_ Hcase].
    rewrite Hcall in Hcase. cbn [fst snd] in Hcase.
    destruct Hcase as [(Hh & _ & Ho)|(d & Hh & _ & _ & _ & Ho)].
    - destruct (Ho p eq_refl) as (t & Ht & <-). rewrite Hh.
      exact (reachable_handlers_valid _ Hreach _ _ Ht).
    - injection Ho as ->. rewrite Hh, length_app. cbn. lia. }
  destruct Hp as (d & Hpd).
  destruct (lookup_lt_is_Some_2 _ _ (Hd _ _ Hpd)) as (T & HdT).
  exists d, T. split; [exact Hpd|]. split; [exact HdT|].
  split; [exact (HT _ _ HdT)|].
  intros Hmiss. rewrite (GetHttpTransport_miss _ _ Hmiss) in Hcall.
  destruct (GetTLSConfig_cases ds w) as ([cfg|e] & w1 & E1 & _ & _).
  - assert (Htls : fst (GetTLSConfig ds w) = Returned (inl cfg))
      by (rewrite E1; reflexivity).
    exists cfg. split; [exact Htls|].
    assert (Hbuilt : exists d0, handlers w' = handlers w ++ [d0] /\
              transport d0 = length (transports w) /\
              transports w' = transports w ++ [built_Transport ds cfg] /\
              p = length (handlers w)).
    { destruct (sigV4_enabled ds) eqn:Hs.
      - destruct (awsServiceNamespace (Type_ ds)) as [service|v] eqn:Hns.
        + destruct (sigV4_enabled_JsonData ds Hs) as (j & Hj & _).
          destruct (build_signed ds w cfg service j Htls Hs Hns Hj)
            as (h & _ & dec & w2 & _ & Hb & Ht & Hh & _).
          rewrite Hb in Hcall. injection Hcall as <- <-. eauto 6.
        + destruct (build_panics ds w cfg v Htls Hs Hns)
            as (h & _ & w2 & Hb & _).
          rewrite Hb in Hcall. discriminate.
      - destruct (build_unsigned ds w cfg Htls Hs)
          as (h & _ & w2 & Hb & Ht & Hh & _).
        rewrite Hb in Hcall. injection Hcall as <- <-. eauto 6. }
    destruct Hbuilt as (d0 & Hh & Htd & Ht & ->).
    rewrite Hh, list_lookup_middle in Hpd by reflexivity.
    injection Hpd as <-.
    rewrite Htd, Ht, list_lookup_middle in HdT by reflexivity.
    injection HdT as <-. reflexivity.
  - assert (Htls : fst (GetTLSConfig ds w) = Returned (inr e))
      by (rewrite E1; reflexivity).
    rewrite (build_tls_error ds w e Htls) in Hcall. discriminate.
Qed.

End Properties.

(** ** The theorems at concrete inputs *)

Section Instances.

Import Example.

(** The unrecognized type with signing enabled everywhere, on empty caches:
    the call panics and caches nothing. *)
Lemma GetHttpTransport_unrecognized_type_panics_witness :
  fst (GetHttpTransport (ds_unknown ext_on sec0) initWorld) =
    Panicked (UnsupportedDatasource "unknown-plugin") /\
  ptc (snd (GetHttpTransport (ds_unknown ext_on sec0) initWorld)) = ∅.
Proof.
  destruct (GetHttpTransport_unrecognized_type_panics (ext := ext_on)
              (ds_unknown ext_on sec0) initWorld _ eq_refl)
    as (_ & Hptc & _ & Hpanic & _).
  - vm_compute. reflexivity.
  - vm_compute. reflexivity.
  - vm_compute. intros [H|[H|H]]; discriminate H.
  - vm_compute. reflexivity.
  - split; [|exact Hptc].
    eapply Hpanic. vm_compute. reflexivity.
Defined.

(** C1, as stated, fails.  The configuration enables signing and the type
    is not recognized; with signing enabled process-wide the call panics,
    and with signing disabled process-wide it returns a handler.  In
    neither case does it return an error. *)
Lemma GetHttpTransport_unrecognized_type_counterexample :
  (MustBool (Get (JObject (list_to_map
       [("sigV4Auth", JBool true); ("sigV4Region", JString "us-east-1")]))
       "sigV4Auth") = true /\
   JsonData (ds_unknown ext_on sec0) =
     Some (JObject (list_to_map
       [("sigV4Auth", JBool true); ("sigV4Region", JString "us-east-1")])) /\
   ~ recognized (ext := ext_on) (Type_ (ds_unknown ext_on sec0))) /\
  (fst (GetHttpTransport (ds_unknown ext_on sec0) initWorld) =
     Panicked (UnsupportedDatasource "unknown-plugin") /\
   ~ (exists e, fst (GetHttpTransport (ds_unknown ext_on sec0) initWorld) =
                Returned (inr e))) /\
  (fst (GetHttpTransport (ds_unknown ext_off sec0) initWorld) =
     Returned (inl 0%nat) /\
   ~ (exists e, fst (GetHttpTransport (ds_unknown ext_off sec0) initWorld) =
                Returned (inr e))).
Proof.
  split; [split; [vm_compute; reflexivity|split; [reflexivity|]]|].
  { vm_compute. intros [H|[H|H]]; discriminate H. }
  split; (split; [vm_compute; reflexivity|]);
    intros (e & H); vm_compute in H; discriminate H.
Qed.

(** Two more calls on the state that caches handler 0 for the plain
    resource. *)
Lemma GetHttpTransport_cached_handler_stable_witness :
  Nat.iter 2 (fun w => snd (GetHttpTransport (ds_plain ext_on sec0 1) w))
    w_cached = w_cached /\
  GetHttpTransport (ds_plain ext_on sec0 1)
    (Nat.iter 2 (fun w => snd (GetHttpTransport (ds_plain ext_on sec0 1) w))
       w_cached) =
  (Returned (inl 0%nat), w_cached).
Proof.
  apply (GetHttpTransport_cached_handler_stable (ext := ext_on)
           (ds_plain ext_on sec0 1) w_cached
           {| updated := 1; handler := 0%nat |}).
  - vm_compute. reflexivity.
  - reflexivity.
Defined.

Lemma w_cached_reachable : reachable w_cached.
Proof. exists [Call_GetHttpTransport (ds_plain ext_on sec0 1)]. reflexivity. Qed.

(** After the plain resource moved from time 1 to time 2 and was rebuilt, a
    call carrying time 1 does not get handler 0 back. *)
Lemma GetHttpTransport_stale_entry_rebuilt_witness :
  fst (GetHttpTransport (ds_plain ext_on sec0 1)
         (snd (GetHttpTransport (ds_plain ext_on sec0 2) w_cached))) <>
  Returned (inl 0%nat).
Proof.
  destruct (GetHttpTransport_stale_entry_rebuilt (ext := ext_on)
              (ds_plain ext_on sec0 2) w_cached
              {| updated := 1; handler := 0%nat |})
    as [_ H].
  - exact w_cached_reachable.
  - vm_compute. reflexivity.
  - vm_compute. discriminate.
  - destruct (H 1%nat (snd (GetHttpTransport (ds_plain ext_on sec0 2) w_cached)))
      as (_ & _ & _ & _ & Hnever).
    + vm_compute. reflexivity.
    + exact (Hnever [] (ds_plain ext_on sec0 1) eq_refl).
Defined.

(** C3, as stated, fails when the reconstruction fails.  The cache holds
    handler 0 for id 7 at time 1; a call for id 7 at time 2 whose CA
    bundle does not parse returns the error and leaves the entry in
    place; a later call for id 7 at time 1 returns handler 0 again. *)
Lemma GetHttpTransport_stale_entry_counterexample :
  ptc w_cached !! 7 = Some {| updated := 1; handler := 0%nat |} /\
  Id (ds_ca "garbage" 2) = 7 /\ Updated (ds_ca "garbage" 2) <> 1 /\
  fst (GetHttpTransport (ds_ca "garbage" 2) w_cached) =
    Returned (inr (errors_New "failed to parse TLS CA PEM certificate")) /\
  ptc (snd (GetHttpTransport (ds_ca "garbage" 2) w_cached)) !! 7 =
    Some {| updated := 1; handler := 0%nat |} /\
  fst (GetHttpTransport (ds_plain ext_on sec0 1)
         (snd (GetHttpTransport (ds_ca "garbage" 2) w_cached))) =
    Returned (inl 0%nat).
Proof.
  split; [vm_compute; reflexivity|]. split; [reflexivity|].
  split; [vm_compute; discriminate|].
  repeat split; vm_compute; reflexivity.
Qed.

(** Names at 1 and 3, none at 2: only the first header. *)
Lemma getCustomHeaders_stops_at_first_gap_witness :
  fst (getCustomHeaders ds_gap initWorld) = Returned {[ "X-One" := "one" ]}.
Proof.
  destruct (getCustomHeaders_stops_at_first_gap (ext := ext_on)
              ds_gap initWorld _ eq_refl) as [_ H].
  rewrite H.
  - vm_compute. reflexivity.
  - vm_compute. discriminate.
  - vm_compute. reflexivity.
  - vm_compute. discriminate.
Defined.

(** With signing enabled everywhere the Elasticsearch resource gets a
    signer for the namespace "es"; the plain resource gets the base
    transport. *)
Lemma GetHttpTransport_signer_or_base_witness :
  next <$> handlers (snd (GetHttpTransport (ds_es ext_on sec0) initWorld)) !! 0%nat =
    Some (RT_SigV4
            {| Service := "es"; AccessKey := ""; SecretKey := "";
               Region := "us-east-1"; AssumeRoleARN := ""; AuthType := "";
               ExternalID := ""; Profile := "" |}
            (RT_Transport 0%nat)) /\
  next <$> handlers (snd (GetHttpTransport (ds_plain ext_on sec0 1) initWorld)) !! 0%nat =
    Some (RT_Transport 0%nat).
Proof.
  split.
  - destruct (GetHttpTransport_signer_or_base (ext := ext_on)
                (ds_es ext_on sec0) initWorld
                {| InsecureSkipVerify := false; ServerName := "";
                   RootCAs := None; Certificates := [];
                   Renegotiation := RenegotiateNever |}) as [H _].
    + vm_compute. reflexivity.
    + vm_compute. reflexivity.
    + destruct (H _ eq_refl)
        as (service & dec & w' & d & Hns & Hdec & Hcall & Hd & _ & _ & Hnext & _).
      * vm_compute. reflexivity.
      * reflexivity.
      * left. reflexivity.
      * rewrite Hcall. cbn [snd]. cbn [handlers initWorld length] in Hd.
        rewrite Hd. cbn [fmap option_fmap option_map]. rewrite Hnext.
        vm_compute in Hns. injection Hns as <-.
        vm_compute in Hdec. injection Hdec as <-.
        vm_compute. reflexivity.
  - destruct (GetHttpTransport_signer_or_base (ext := ext_on)
                (ds_plain ext_on sec0 1) initWorld
                {| InsecureSkipVerify := false; ServerName := "";
                   RootCAs := None; Certificates := [];
                   Renegotiation := RenegotiateNever |}) as [_ H].
    + vm_compute. reflexivity.
    + vm_compute. reflexivity.
    + destruct H as (w' & d & Hcall & Hd & _ & _ & Hnext).
      * vm_compute. reflexivity.
      * rewrite Hcall. cbn [snd]. cbn [handlers initWorld length] in Hd.
        rewrite Hd. cbn [fmap option_fmap option_map]. rewrite Hnext.
        reflexivity.
Defined.

(** C5, as stated, fails.  The resource's own configuration enables
    signing and its type is recognized, but signing is disabled
    process-wide: the built handler's next delegate is the base transport,
    not a request signer. *)
Lemma GetHttpTransport_signer_counterexample :
  (JsonData (ds_es ext_off sec0) =
     Some (JObject (list_to_map
       [("sigV4Auth", JBool true); ("sigV4Region", JString "us-east-1")])) /\
   MustBool (Get (JObject (list_to_map
       [("sigV4Auth", JBool true); ("sigV4Region", JString "us-east-1")]))
       "sigV4Auth") = true /\
   recognized (ext := ext_off) (Type_ (ds_es ext_off sec0))) /\
  fst (GetHttpTransport (ds_es ext_off sec0) initWorld) = Returned (inl 0%nat) /\
  next <$> handlers (snd (GetHttpTransport (ds_es ext_off sec0) initWorld)) !! 0%nat =
    Some (RT_Transport 0%nat).
Proof.
  split; [split; [reflexivity|split; [vm_compute; reflexivity|left; reflexivity]]|].
  split; vm_compute; reflexivity.
Qed.


(** A CA bundle that does not parse. *)
Lemma GetTLSConfig_unparsable_CA_witness :
  fst (GetTLSConfig (ds_ca "garbage" 1) initWorld) =
  Returned (inr (errors_New "failed to parse TLS CA PEM certificate")).
Proof.
  apply (GetTLSConfig_unparsable_CA (ext := ext_on)
           (ds_ca "garbage" 1) initWorld _ eq_refl).
  - vm_compute. reflexivity.
  - vm_compute. discriminate.
  - vm_compute. reflexivity.
Defined.

(** A first build with a CA bundle that parses. *)
Lemma GetHttpTransport_permits_renegotiation_witness :
  exists (d : dataSourceTransport) (T : http_Transport),
    handlers (snd (GetHttpTransport
                     (ds_ca "-----BEGIN CERTIFICATE-----MIIB" 1) initWorld))
      !! 0%nat = Some d /\
    transports (snd (GetHttpTransport
                       (ds_ca "-----BEGIN CERTIFICATE-----MIIB" 1) initWorld))
      !! transport d = Some T /\
    Renegotiation (TLSClientConfig T) = RenegotiateFreelyAsClient.
Proof.
  destruct (GetHttpTransport_permits_renegotiation (ext := ext_on)
              (ds_ca "-----BEGIN CERTIFICATE-----MIIB" 1) initWorld 0%nat
              (snd (GetHttpTransport
                      (ds_ca "-----BEGIN CERTIFICATE-----MIIB" 1) initWorld)))
    as (d & T & Hd & HT & Hreneg & _).
  - exists []. reflexivity.
  - vm_compute. reflexivity.
  - exists d, T. auto.
Defined.

(** Names at 1 and 2, a value only for 2: only the second header. *)
Lemma getCustomHeaders_skips_missing_value_witness :
  fst (getCustomHeaders ds_novalue initWorld) = Returned {[ "X-Two" := "two" ]}.
Proof.
  destruct (getCustomHeaders_skips_missing_value (ext := ext_on)
              ds_novalue initWorld _ 3%nat 1%nat eq_refl)
    as (_ & _ & H).
  - split; [lia|]. split; [vm_compute; reflexivity|].
    intros i Hi. assert (i = 1 \/ i = 2)%nat as [-> | ->] by lia;
      vm_compute; discriminate.
  - lia.
  - vm_compute. reflexivity.
  - rewrite H. vm_compute. reflexivity.
Defined.

(** Before the clear a cached value is served without consulting the
    secret store; after it the store is consulted again. *)
Example ClearDSDecryptionCache_example :
  let ds := ds_ca "first" 1 in
  let ds' := ds_ca "rotated" 1 in
  let w1 := snd (DecryptedValues ds initWorld) in
  fst (DecryptedValue ds' "tlsCACert" w1) = Returned ("first", true) /\
  fst (DecryptedValue ds' "tlsCACert" (snd (ClearDSDecryptionCache w1))) =
    Returned ("rotated", true).
Proof. split; vm_compute; reflexivity. Qed.

End Instances.

(** ** Further properties of the transport path *)

Section Further.

Context {ext : Externals}.

Implicit Types (ds : DataSource) (w : World).

(** *** [getTimeout] *)

Lemma wrap64_small (z : Z) :
  - 2 ^ 63 <= z < 2 ^ 63 -> wrap64 z = z.
Proof.
  intros H. unfold wrap64.
  rewrite Z.mod_small by lia. lia.
Qed.

Lemma MustInt_literal (n : Z) :
  MustInt (JValue (JNumber n)) = if decide (- 2 ^ 63 <= n < 2 ^ 63) then n else 0.
Proof.
  unfold MustInt. destruct (Z.leb_spec (- 2 ^ 63) n), (Z.ltb_spec n (2 ^ 63));
    cbn [andb]; destruct (decide (- 2 ^ 63 <= n < 2 ^ 63)); lia.
Qed.

(** X1.  [getTimeout].  A [timeout] entry of the configuration overrides
    the process-wide default exactly when it is a non-zero integer
    literal that fits a signed 64-bit integer; the result is then that
    many seconds in nanoseconds, with 64-bit wrap-around, and exactly so
    up to 9223372036 seconds in magnitude.  In every other case (nil
    configuration, entry missing or no number, a number with a fraction
    or an exponent, an integer out of the 64-bit range, or 0) the result
    is the process-wide default [DataProxyTimeout], in the same way. *)
Theorem getTimeout_override_or_default ds :
  (forall (j : Json) (n : Z),
     JsonData ds = Some j ->
     Get j "timeout" = JValue (JNumber n) ->
     n <> 0 ->
     - 2 ^ 63 <= n < 2 ^ 63 ->
     getTimeout ds = wrap64 (n * 1000000000) /\
     (- 9223372036 <= n <= 9223372036 -> getTimeout ds = n * 1000000000)) /\
  ((JsonData ds = None \/
    exists j : Json,
      JsonData ds = Some j /\
      forall n : Z, Get j "timeout" = JValue (JNumber n) ->
                    n = 0 \/ ~ (- 2 ^ 63 <= n < 2 ^ 63)) ->
   getTimeout ds = wrap64 (DataProxyTimeout setting * 1000000000) /\
   (- 9223372036 <= DataProxyTimeout setting <= 9223372036 ->
    getTimeout ds = DataProxyTimeout setting * 1000000000)).
Proof.
  unfold getTimeout, time_Second. split.
  - intros j n Hj Hget Hne Hr. rewrite Hj, Hget, MustInt_literal.
    destruct (decide (- 2 ^ 63 <= n < 2 ^ 63)) as [_|Hno]; [|contradiction].
    destruct (Z.eqb_spec n 0); [contradiction|].
    split; [reflexivity|]. intros Hs. apply wrap64_small. lia.
  - intros Hdef.
    assert (Hzero : match JsonData ds with
                    | Some j => MustInt (Get j "timeout")
                    | None => 0
                    end = 0).
    { destruct Hdef as [->|(j & -> & Hj)]; [reflexivity|].
      destruct (Get j "timeout") as [m|[| |n| |]] eqn:Hget; try reflexivity.
      rewrite MustInt_literal.
      destruct (decide (- 2 ^ 63 <= n < 2 ^ 63)) as [Hin|_]; [|reflexivity].
      destruct (Hj n eq_refl) as [->|Hout]; [reflexivity|contradiction]. }
    rewrite Hzero. cbn [Z.eqb].
    split; [reflexivity|]. intros Hs. apply wrap64_small. lia.
Qed.

(** *** [GetTLSConfig] *)

Lemma GetTLSConfig_unfold ds w :
  GetTLSConfig ds w =
  if config_flag ds "tlsAuth" || config_flag ds "tlsAuthWithCACert"
  then
    (Returned
       match tls_ca_step (config_flag ds "tlsAuthWithCACert")
               (Decrypt (SecureJsonData ds))
               {| InsecureSkipVerify := config_flag ds "tlsSkipVerify";
                  ServerName := config_string ds "serverName";
                  RootCAs := None; Certificates := [];
                  Renegotiation := RenegotiateNever |} with
       | inr err => inr err
       | inl c =>
           tls_client_step (config_flag ds "tlsAuth")
             (Decrypt (SecureJsonData ds)) c
       end,
     log_Decrypt (SecureJsonData ds) w)
  else
    (Returned (inl {| InsecureSkipVerify := config_flag ds "tlsSkipVerify";
                      ServerName := config_string ds "serverName";
                      RootCAs := None; Certificates := [];
                      Renegotiation := RenegotiateNever |}), w).
Proof.
  unfold GetTLSConfig, config_flag, config_string, bind, call_Decrypt, ret.
  destruct (_ || _); [|reflexivity].
  destruct (tls_ca_step _ _ _); reflexivity.
Qed.

Lemma tls_ca_step_usable ds (c : tls_Config) :
  ca_usable ds ->
  tls_ca_step (config_flag ds "tlsAuthWithCACert")
    (Decrypt (SecureJsonData ds)) c =
  inl (if config_flag ds "tlsAuthWithCACert" &&
          negb (bool_decide
                  (go_index (Decrypt (SecureJsonData ds)) "tlsCACert" = ""))
       then with_RootCAs c
              (parsePEMCertificates
                 (go_index (Decrypt (SecureJsonData ds)) "tlsCACert"))
       else c).
Proof.
  unfold ca_usable, tls_ca_step, AppendCertsFromPEM, NewCertPool.
  intros Hok. destruct (config_flag ds "tlsAuthWithCACert"); [|reflexivity].
  destruct (go_index (Decrypt (SecureJsonData ds)) "tlsCACert") as [|a s0] eqn:E;
    [reflexivity|].
  cbn [andb String.length Nat.ltb Nat.leb negb].
  rewrite bool_decide_eq_false_2 by discriminate. cbn [negb].
  destruct (parsePEMCertificates (String a s0)) as [|cert l] eqn:Ep.
  - exfalso. apply Hok; [reflexivity|discriminate|reflexivity].
  - reflexivity.
Qed.

(** X2.  [GetTLSConfig] consults the secret store exactly once when
    [tlsAuth] or [tlsAuthWithCACert] is set, whether it then succeeds or
    fails, and not at all otherwise; it changes nothing else in the
    state. *)
Theorem GetTLSConfig_decrypt_calls ds w :
  snd (GetTLSConfig ds w) =
  if config_flag ds "tlsAuth" || config_flag ds "tlsAuthWithCACert"
  then log_Decrypt (SecureJsonData ds) w
  else w.
Proof.
  rewrite GetTLSConfig_unfold. destruct (_ || _); reflexivity.
Qed.

(** X3.  Mutual TLS: when [tlsAuth] is set, the CA step does not fail and
    [tls.X509KeyPair] rejects the decrypted certificate and key,
    [GetTLSConfig] returns that error unchanged. *)
Theorem GetTLSConfig_key_pair_error ds w (e : error) :
  config_flag ds "tlsAuth" = true ->
  ca_usable ds ->
  client_key_pair ds = inr e ->
  fst (GetTLSConfig ds w) = Returned (inr e).
Proof.
  intros Hauth Hca Hpair. rewrite GetTLSConfig_unfold, Hauth. cbn [orb fst].
  rewrite (tls_ca_step_usable ds _ Hca). unfold tls_client_step.
  fold (client_key_pair ds). rewrite Hpair. reflexivity.
Qed.

(** X4.  When neither step fails, [GetTLSConfig] returns a configuration
    with the configured skip-verify flag and server name; its trust store
    is exactly the certificates parsed from [tlsCACert] when pinning is
    requested and the bytes are not empty, and is left unset otherwise (so
    pinning with a missing or empty CA is silently not applied); it holds
    the one client certificate when [tlsAuth] is set and none otherwise. *)
Theorem GetTLSConfig_success ds w :
  ca_usable ds ->
  (config_flag ds "tlsAuth" = true ->
   exists cert, client_key_pair ds = inl cert) ->
  exists cfg : tls_Config,
    fst (GetTLSConfig ds w) = Returned (inl cfg) /\
    InsecureSkipVerify cfg = config_flag ds "tlsSkipVerify" /\
    ServerName cfg = config_string ds "serverName" /\
    RootCAs cfg =
      (if config_flag ds "tlsAuthWithCACert" &&
          negb (bool_decide
                  (go_index (Decrypt (SecureJsonData ds)) "tlsCACert" = ""))
       then Some (parsePEMCertificates
                    (go_index (Decrypt (SecureJsonData ds)) "tlsCACert"))
       else None) /\
    Certificates cfg =
      (if config_flag ds "tlsAuth"
       then match client_key_pair ds with
            | inl cert => [cert]
            | inr _ => []
            end
       else []).
Proof.
  intros Hca Hpair.
  rewrite GetTLSConfig_unfold, (tls_ca_step_usable ds _ Hca).
  unfold tls_client_step. fold (client_key_pair ds).
  destruct (config_flag ds "tlsAuth") eqn:Hauth.
  - destruct (Hpair eq_refl) as (cert & Hcert). cbn [orb fst].
    rewrite Hcert. eexists. split; [reflexivity|].
    destruct (_ && _); repeat split.
  - cbn [orb]. destruct (config_flag ds "tlsAuthWithCACert") eqn:Hpin.
    + cbn [fst]. eexists. split; [reflexivity|].
      destruct (_ && _); repeat split.
    + cbn [fst]. eexists. split; [reflexivity|]. repeat split.
Qed.

(** *** The decryption cache *)

Lemma DecryptedValues_entry ds w :
  exists item : cachedDecryptedJSON,
    lookup_valid cd_updated (dsDecryptionCache (snd (DecryptedValues ds w))) ds
      = Some item /\
    fst (DecryptedValues ds w) = Returned (json item).
Proof.
  destruct (lookup_valid cd_updated (dsDecryptionCache w) ds) as [item|] eqn:E.
  - rewrite (DecryptedValues_hit _ _ _ E). cbn [fst snd]. eauto.
  - rewrite (DecryptedValues_miss _ _ E). cbn [fst snd].
    exists {| cd_updated := Updated ds; json := Decrypt (SecureJsonData ds) |}.
    split; [|reflexivity]. apply lookup_valid_Some. cbn.
    rewrite lookup_insert_eq. split; reflexivity.
Qed.

(** X5.  The decryption cache is keyed by id and timestamp only: once
    [DecryptedValues] has run for a resource, every call for a resource
    with the same id and the same [Updated], whatever secrets that
    resource carries, returns the same map without consulting the secret
    store and without changing the state. *)
Theorem DecryptedValues_then_hit ds ds' w :
  Id ds' = Id ds ->
  Updated ds' = Updated ds ->
  exists values,
    fst (DecryptedValues ds w) = Returned values /\
    DecryptedValues ds' (snd (DecryptedValues ds w)) =
    (Returned values, snd (DecryptedValues ds w)).
Proof.
  intros Hid Hupd.
  destruct (DecryptedValues_entry ds w) as (item & Hitem & Hval).
  exists (json item). split; [exact Hval|].
  apply DecryptedValues_hit. apply lookup_valid_Some.
  apply lookup_valid_Some in Hitem. rewrite Hid, Hupd. exact Hitem.
Qed.

(** X6.  When the decryption cache has no entry for the resource id, or
    one with another timestamp, [DecryptedValues] consults the secret
    store once, returns what it gives and replaces the entry of that id
    by the new map with the new timestamp; the entries of all other ids,
    the transport cache and the arenas are left as they were. *)
Theorem DecryptedValues_miss_replaces ds w :
  (forall item : cachedDecryptedJSON,
     dsDecryptionCache w !! Id ds = Some item -> cd_updated item <> Updated ds) ->
  let w1 := snd (DecryptedValues ds w) in
  fst (DecryptedValues ds w) = Returned (Decrypt (SecureJsonData ds)) /\
  decryptCalls w1 = SecureJsonData ds :: decryptCalls w /\
  dsDecryptionCache w1 !! Id ds =
    Some {| cd_updated := Updated ds; json := Decrypt (SecureJsonData ds) |} /\
  (forall id, id <> Id ds ->
     dsDecryptionCache w1 !! id = dsDecryptionCache w !! id) /\
  same_store w w1.
Proof.
  intros Hstale. cbn zeta.
  assert (Hmiss : lookup_valid cd_updated (dsDecryptionCache w) ds = None).
  { apply lookup_valid_None. intros item Hitem Heq.
    apply (Hstale item Hitem). symmetry. exact Heq. }
  rewrite (DecryptedValues_miss _ _ Hmiss). cbn [fst snd].
  split; [reflexivity|]. split; [reflexivity|].
  split; [cbn; apply lookup_insert_eq|].
  split; [|repeat split].
  intros id Hne. cbn. apply lookup_insert_ne. congruence.
Qed.

(** *** More on the header scan *)

Section HeaderFold.

Variable j : Json.
Variable decrypted : gmap string string.

(** A header found after folding some indices was there before or comes
    from one of them. *)
Lemma foldl_apply_header_inv (l : list nat) : forall h0 k v,
  foldl (apply_header j decrypted) h0 l !! k = Some v ->
  h0 !! k = Some v \/
  exists n, n ∈ l /\ headerName j n = k /\
            decrypted !! headerValueKey n = Some v.
Proof.
  induction l as [|i l IH]; intros h0 k v H; [left; exact H|].
  cbn [foldl] in H. apply IH in H as [H|(n & Hn & Hk & Hv)].
  - unfold apply_header in H.
    destruct (decrypted !! headerValueKey i) as [vi|] eqn:Ei; [|left; exact H].
    destruct (decide (headerName j i = k)) as [Heq|Hne].
    + rewrite Heq, lookup_insert_eq in H. injection H as ->.
      right. exists i. split; [left|]. split; [exact Heq|exact Ei].
    + rewrite lookup_insert_ne in H by exact Hne. left. exact H.
  - right. exists n. split; [right; exact Hn|]. split; [exact Hk|exact Hv].
Qed.

(** Indices that do not set [k] leave it as it is. *)
Lemma foldl_apply_header_other (l : list nat) : forall h0 k,
  (forall m, m ∈ l -> headerName j m = k ->
             decrypted !! headerValueKey m = None) ->
  foldl (apply_header j decrypted) h0 l !! k = h0 !! k.
Proof.
  induction l as [|i l IH]; intros h0 k Hno; [reflexivity|].
  cbn [foldl]. rewrite IH by (intros m Hm; apply Hno; right; exact Hm).
  unfold apply_header.
  destruct (decrypted !! headerValueKey i) as [vi|] eqn:Ei; [|reflexivity].
  apply lookup_insert_ne. intros Heq.
  rewrite (Hno i) in Ei by (left || exact Heq). discriminate.
Qed.

End HeaderFold.

(** X7.  Duplicate header names: the value that ends up under a header
    name is the one of the highest scanned index that carries this name
    and has a value. *)
Theorem getCustomHeaders_last_index_wins ds w (j : Json) (g n : nat) (v : string) :
  JsonData ds = Some j ->
  first_gap j g ->
  (1 <= n < g)%nat ->
  Decrypt (SecureJsonData ds) !! headerValueKey n = Some v ->
  (forall m, (n < m < g)%nat -> headerName j m = headerName j n ->
     Decrypt (SecureJsonData ds) !! headerValueKey m = None) ->
  exists h, fst (getCustomHeaders ds w) = Returned h /\
            h !! headerName j n = Some v.
Proof.
  intros Hj Hfg Hn Hv Hlater.
  rewrite (getCustomHeaders_first_gap _ _ _ _ Hj Hfg). cbn [fst].
  eexists. split; [reflexivity|]. unfold headers_of.
  assert (Hsplit : seq 1 (g - 1) =
                   seq 1 (n - 1) ++ n :: seq (S n) (g - 1 - n)).
  { replace (g - 1)%nat with ((n - 1) + S (g - 1 - n))%nat at 1 by lia.
    rewrite seq_app. replace (1 + (n - 1))%nat with n by lia. reflexivity. }
  rewrite Hsplit, foldl_app. cbn [foldl].
  rewrite foldl_apply_header_other.
  - unfold apply_header. rewrite Hv. apply lookup_insert_eq.
  - intros m Hm. apply elem_of_seq in Hm. apply Hlater. lia.
Qed.

(** X8.  Where the headers come from: every entry of the result of
    [getCustomHeaders] has a non-empty name, configured at some index
    [n >= 1] all of whose predecessors are named too, and its value is the
    decrypted secret [httpHeaderValue<n>]; a value kept in the plain
    configuration is never used. *)
Theorem getCustomHeaders_provenance ds w (h : gmap string string)
    (k v : string) :
  fst (getCustomHeaders ds w) = Returned h ->
  h !! k = Some v ->
  k <> "" /\
  exists (j : Json) (n : nat),
    JsonData ds = Some j /\ (1 <= n)%nat /\
    (forall i, (1 <= i <= n)%nat -> headerName j i <> "") /\
    headerName j n = k /\
    Decrypt (SecureJsonData ds) !! headerValueKey n = Some v.
Proof.
  intros Hres Hk. destruct (JsonData ds) as [j|] eqn:Hj.
  - destruct (first_gap_exists j) as (g & Hfg & _).
    rewrite (getCustomHeaders_first_gap _ _ _ _ Hj Hfg) in Hres.
    cbn [fst] in Hres. injection Hres as <-.
    apply foldl_apply_header_inv in Hk as [Hk|(n & Hn & Hname & Hv)].
    { rewrite lookup_empty in Hk. discriminate. }
    apply elem_of_seq in Hn. destruct Hfg as (_ & _ & Hnamed).
    split; [rewrite <- Hname; apply Hnamed; lia|].
    exists j, n. split; [reflexivity|]. split; [lia|].
    split; [intros i Hi; apply Hnamed; lia|]. split; [exact Hname|exact Hv].
  - rewrite (getCustomHeaders_nil _ _ Hj) in Hres. cbn [fst] in Hres.
    injection Hres as <-. rewrite lookup_empty in Hk. discriminate.
Qed.

(** *** The transport cache over runs of calls *)

(** A call only appends to the arenas and to the record of decrypt
    calls. *)
Lemma exec_grows (c : call) w :
  (exists hs, handlers (exec c w) = handlers w ++ hs) /\
  (exists ts, transports (exec c w) = transports w ++ ts) /\
  (forall id (t : cachedTransport),
     ptc w !! id = Some t -> is_Some (ptc (exec c w) !! id)).
Proof.
  destruct (exec_effect c w) as [(Hp & Hh & Ht)|(ds & ->)].
  - rewrite Hp, Hh, Ht.
    split; [exists []; symmetry; apply app_nil_r|].
    split; [exists []; symmetry; apply app_nil_r|]. eauto.
  - destruct (GetHttpTransport_effect ds w)
      as [(ts & Ht & _) [(Hh & Hp & _)|(d & Hh & _ & _ & Hp & _)]].
    + rewrite Hh, Hp. split; [exists []; symmetry; apply app_nil_r|].
      split; [eauto|]. eauto.
    + rewrite Hh, Hp. split; [eauto|]. split; [eauto|].
      intros id t Hid. destruct (decide (id = Id ds)) as [->|Hne].
      * rewrite lookup_insert_eq. eauto.
      * rewrite lookup_insert_ne by congruence. eauto.
Qed.

(** X9.  Over any sequence of calls the transport cache never loses an
    entry (there is no eviction, and clearing the decryption cache does
    not touch it), and the two arenas only grow: a handler or base
    transport, once allocated, stays at its address unchanged. *)
Theorem run_never_evicts (cs : list call) : forall w,
  (forall id (t : cachedTransport),
     ptc w !! id = Some t -> is_Some (ptc (run cs w) !! id)) /\
  (forall p (d : dataSourceTransport),
     handlers w !! p = Some d -> handlers (run cs w) !! p = Some d) /\
  (forall q (T : http_Transport),
     transports w !! q = Some T -> transports (run cs w) !! q = Some T).
Proof.
  induction cs as [|c cs IH]; intros w; [repeat split; eauto|].
  change (run (c :: cs) w) with (run cs (exec c w)).
  destruct (IH (exec c w)) as (IHp & IHh & IHt).
  destruct (exec_grows c w) as ((hs & Hh) & (ts & Ht) & Hp).
  split; [|split].
  - intros id t Hid. destruct (Hp _ _ Hid) as (t' & Ht'). exact (IHp _ _ Ht').
  - intros p d Hpd. apply IHh. rewrite Hh. apply lookup_app_l_Some, Hpd.
  - intros q T HqT. apply IHt. rewrite Ht. apply lookup_app_l_Some, HqT.
Qed.

Lemma exec_other_id (c : call) w (id : Z) :
  transport_call_Id c <> Some id ->
  ptc (exec c w) !! id = ptc w !! id.
Proof.
  intros Hc.
  assert (Hget : forall ds, Id ds <> id ->
            ptc (snd (GetHttpTransport ds w)) !! id = ptc w !! id).
  { intros ds Hne.
    destruct (GetHttpTransport_effect ds w)
      as [_ [(_ & Hp & _)|(d & _ & _ & _ & Hp & _)]]; rewrite Hp;
      [reflexivity|].
    apply lookup_insert_ne. exact Hne. }
  destruct c as [ds|ds|ds|ds|ds key|]; cbn [exec transport_call_Id] in *.
  - apply Hget. congruence.
  - rewrite GetHttpClient_world. apply Hget. congruence.
  - destruct (GetTLSConfig_same_store ds w) as (Hp & _). rewrite Hp.
    reflexivity.
  - destruct (DecryptedValues_returns ds w) as (v & w1 & E & (Hp & _)).
    rewrite E. cbn [snd]. rewrite Hp. reflexivity.
  - unfold DecryptedValue, bind, ret.
    destruct (DecryptedValues_returns ds w) as (v & w1 & E & (Hp & _)).
    rewrite E. cbv beta iota. cbn [snd]. rewrite Hp. reflexivity.
  - reflexivity.
Qed.

(** X10.  The cached entry of a resource id can only be changed by a
    [GetHttpTransport] or [GetHttpClient] call for that id: any sequence
    of calls without one leaves it as it was. *)
Theorem run_other_ids (cs : list call) (id : Z) : forall w,
  Forall (fun c => transport_call_Id c <> Some id) cs ->
  ptc (run cs w) !! id = ptc w !! id.
Proof.
  induction cs as [|c cs IH]; intros w Hcs; [reflexivity|].
  apply Forall_cons in Hcs as [Hc Hcs].
  change (run (c :: cs) w) with (run cs (exec c w)).
  rewrite (IH _ Hcs). apply exec_other_id, Hc.
Qed.

Lemma handlers_distinct_exec (c : call) w :
  handlers_valid w -> handlers_distinct w -> handlers_distinct (exec c w).
Proof.
  intros Hv Hd. destruct (exec_effect c w) as [(Hp & _ & _)|(ds & ->)].
  - intros id1 id2 t1 t2. rewrite Hp. apply Hd.
  - destruct (GetHttpTransport_effect ds w)
      as [_ [(_ & Hp & _)|(d & _ & _ & _ & Hp & _)]];
      intros id1 id2 t1 t2; rewrite Hp; [apply Hd|].
    destruct (decide (id1 = Id ds)) as [->|Hne1],
             (decide (id2 = Id ds)) as [->|Hne2]; [reflexivity|..].
    + rewrite lookup_insert_eq, lookup_insert_ne by congruence.
      intros [= <-] H2 Heq. apply Hv in H2. cbn in Heq. lia.
    + rewrite lookup_insert_eq, lookup_insert_ne by congruence.
      intros H1 [= <-] Heq. apply Hv in H1. cbn in Heq. lia.
    + rewrite !lookup_insert_ne by congruence. apply Hd.
Qed.

(** X11.  In every reachable state, different resource ids are cached
    with different handlers: no handler is ever shared between two
    resources. *)
Theorem reachable_handlers_distinct w (id1 id2 : Z) (t1 t2 : cachedTransport) :
  reachable w ->
  ptc w !! id1 = Some t1 ->
  ptc w !! id2 = Some t2 ->
  id1 <> id2 ->
  handler t1 <> handler t2.
Proof.
  intros Hreach H1 H2 Hne Heq. apply Hne.
  assert (Hinv : forall w0, reachable w0 ->
                   handlers_valid w0 /\ handlers_distinct w0).
  { apply (reachable_invariant
             (fun w0 => handlers_valid w0 /\ handlers_distinct w0)).
    - split; intros id; intros; cbn in *;
        rewrite lookup_empty in *; discriminate.
    - intros c w0 [Hv Hd].
      split; [apply handlers_valid_exec, Hv|apply handlers_distinct_exec; auto]. }
  destruct (Hinv w Hreach) as [_ Hd]. exact (Hd _ _ _ _ H1 H2 Heq).
Qed.

(** X12.  Clearing the decryption cache does not invalidate built
    transports: a resource with a valid transport cache entry still gets
    its cached handler afterwards, built from the secrets read at build
    time, and nothing is rebuilt. *)
Theorem ClearDSDecryptionCache_keeps_transports ds w (t : cachedTransport) :
  ptc w !! Id ds = Some t ->
  Updated ds = updated t ->
  let w0 := snd (ClearDSDecryptionCache w) in
  GetHttpTransport ds w0 = (Returned (inl (handler t)), w0) /\
  handlers w0 = handlers w /\ transports w0 = transports w /\
  decryptCalls w0 = decryptCalls w.
Proof.
  intros Hentry Hupd. cbn zeta. split; [|repeat split].
  apply GetHttpTransport_hit, lookup_valid_Some. cbn. auto.
Qed.




(** *** [GetHttpClient] *)

(** X15.  [GetHttpClient] passes errors and panics of [GetHttpTransport]
    through and changes the state exactly as [GetHttpTransport] does.  On
    a cache hit it returns the cached handler with a timeout computed
    from the resource passed in, so a client's timeout follows the
    resource at hand even when the transport, with the dial timeout it
    was built with, comes from the cache. *)
Theorem GetHttpClient_wraps_GetHttpTransport ds w :
  snd (GetHttpClient ds w) = snd (GetHttpTransport ds w) /\
  (forall e, fst (GetHttpTransport ds w) = Returned (inr e) ->
     fst (GetHttpClient ds w) = Returned (inr e)) /\
  (forall v, fst (GetHttpTransport ds w) = Panicked v ->
     fst (GetHttpClient ds w) = Panicked v) /\
  (forall p, fst (GetHttpTransport ds w) = Returned (inl p) ->
     fst (GetHttpClient ds w) =
     Returned (inl {| Timeout := getTimeout ds; Transport := p |})) /\
  (forall t : cachedTransport,
     ptc w !! Id ds = Some t -> Updated ds = updated t ->
     GetHttpClient ds w =
     (Returned (inl {| Timeout := getTimeout ds; Transport := handler t |}),
      w)).
Proof.
  split; [apply GetHttpClient_world|].
  unfold GetHttpClient, bind, ret.
  repeat split.
  - intros e. destruct (GetHttpTransport ds w) as [o w1]. cbn [fst].
    intros ->. reflexivity.
  - intros v. destruct (GetHttpTransport ds w) as [o w1]. cbn [fst].
    intros ->. reflexivity.
  - intros p. destruct (GetHttpTransport ds w) as [o w1]. cbn [fst].
    intros ->. reflexivity.
  - intros t Hentry Hupd.
    rewrite (GetHttpTransport_hit ds w t) by (apply lookup_valid_Some; auto).
    reflexivity.
Qed.

End Further.

(** ** Properties of the provider-based path and of the round trip *)

Section Further2.

Context {ext : Externals} {ext2 : Externals2}.

Implicit Types (ds : DataSource) (w : World).

(** *** [RoundTrip]: the header loop *)

Lemma RoundTrip_headers_untouched (order : list (string * string)) :
  forall (h : http_Header) (c : string),
    (forall kv, kv ∈ order -> CanonicalMIMEHeaderKey kv.1 <> c) ->
    RoundTrip_headers order h !! c = h !! c.
Proof.
  unfold RoundTrip_headers.
  induction order as [|kv order IH]; intros h c Hno; [reflexivity|].
  cbn [foldl]. rewrite IH by (intros kv' Hkv'; apply Hno; right; exact Hkv').
  unfold Header_Set, http_Header in *. apply lookup_insert_ne. apply Hno. left.
Qed.

Lemma RoundTrip_headers_set (order : list (string * string)) :
  forall (h : http_Header) (c v : string),
    (exists kv, kv ∈ order /\ CanonicalMIMEHeaderKey kv.1 = c) ->
    (forall kv, kv ∈ order -> CanonicalMIMEHeaderKey kv.1 = c -> kv.2 = v) ->
    RoundTrip_headers order h !! c = Some [v].
Proof.
  unfold RoundTrip_headers.
  induction order as [|kv order IH]; intros h c v (kv0 & Hin & Hc) Hall.
  { inversion Hin. }
  cbn [foldl].
  destruct (decide (Exists (fun kv' => CanonicalMIMEHeaderKey kv'.1 = c) order))
    as [Hex|Hno]; rewrite Exists_exists in *.
  - apply IH; [exact Hex|]. intros kv' Hkv'. apply Hall. right. exact Hkv'.
  - fold (RoundTrip_headers order (Header_Set h kv.1 kv.2)).
    rewrite RoundTrip_headers_untouched
      by (intros kv' Hkv' Heq; apply Hno; eauto).
    apply elem_of_cons in Hin as [Heq|Hin]; [|exfalso; apply Hno; eauto].
    subst kv0 c. unfold Header_Set, http_Header in *.
    rewrite lookup_insert_eq.
    rewrite (Hall kv) by (left || reflexivity). reflexivity.
Qed.

(** X16.  The header loop of [RoundTrip], for every order in which Go may
    visit the handler's headers: a configured header whose canonical key
    no other configured header shares is set to exactly its value,
    replacing whatever the request held under that key; a key that is the
    canonical form of no configured header is left as the request had
    it. *)
Theorem RoundTrip_headers_overwrite (headers : gmap string string)
    (order : list (string * string)) (h : http_Header) :
  order ≡ₚ map_to_list headers ->
  (forall k v,
     headers !! k = Some v ->
     (forall k' v', headers !! k' = Some v' ->
        CanonicalMIMEHeaderKey k' = CanonicalMIMEHeaderKey k -> k' = k) ->
     RoundTrip_headers order h !! CanonicalMIMEHeaderKey k = Some [v]) /\
  (forall c,
     (forall k v, headers !! k = Some v -> CanonicalMIMEHeaderKey k <> c) ->
     RoundTrip_headers order h !! c = h !! c).
Proof.
  intros Hperm.
  assert (Hin : forall k v, (k, v) ∈ order <-> headers !! k = Some v).
  { intros k v. rewrite Hperm. apply elem_of_map_to_list. }
  split.
  - intros k v Hk Huniq. apply RoundTrip_headers_set.
    + exists (k, v). split; [apply Hin, Hk|reflexivity].
    + intros [k' v'] Hkv' Hc. cbn in *. apply Hin in Hkv'.
      pose proof (Huniq _ _ Hkv' Hc) as ->. congruence.
  - intros c Hno. apply RoundTrip_headers_untouched.
    intros [k v] Hkv. apply Hin in Hkv. exact (Hno _ _ Hkv).
Qed.

(** *** Reading secrets through the decryption cache *)

Lemma DecryptedValues_eq ds w :
  DecryptedValues ds w =
  (Returned (cached_values ds w), snd (DecryptedValues ds w)).
Proof.
  unfold cached_values.
  destruct (lookup_valid cd_updated (dsDecryptionCache w) ds) as [item|] eqn:E.
  - rewrite (DecryptedValues_hit _ _ _ E). reflexivity.
  - rewrite (DecryptedValues_miss _ _ E). reflexivity.
Qed.

Lemma cached_values_frame ds w w' :
  dsDecryptionCache w' = dsDecryptionCache w ->
  cached_values ds w' = cached_values ds w.
Proof. intros H. unfold cached_values. rewrite H. reflexivity. Qed.

Lemma DecryptedValues_again ds w :
  cached_values ds (snd (DecryptedValues ds w)) = cached_values ds w /\
  snd (DecryptedValues ds (snd (DecryptedValues ds w))) =
  snd (DecryptedValues ds w).
Proof.
  destruct (DecryptedValues_entry ds w) as (item & Hitem & Hval).
  rewrite DecryptedValues_eq in Hval. cbn [fst] in Hval.
  injection Hval as Hval. split.
  - unfold cached_values at 1. rewrite Hitem. symmetry. exact Hval.
  - rewrite (DecryptedValues_hit _ _ _ Hitem). reflexivity.
Qed.

Lemma DecryptedValue_eq ds (key : string) w :
  DecryptedValue ds key w =
  (Returned (go_index (cached_values ds w) key,
             bool_decide (is_Some (cached_values ds w !! key))),
   snd (DecryptedValues ds w)).
Proof.
  unfold DecryptedValue, bind, ret. rewrite DecryptedValues_eq. reflexivity.
Qed.

Lemma exists_nonempty_false (values : gmap string string) (key : string) :
  exists_nonempty (go_index values key, bool_decide (is_Some (values !! key)))
    = false ->
  go_index values key = "".
Proof.
  unfold exists_nonempty, go_index. cbn [fst snd].
  destruct (values !! key) as [v|]; [|reflexivity]. cbn [default].
  rewrite bool_decide_eq_true_2 by eauto. cbn [andb].
  destruct v; [reflexivity|discriminate].
Qed.

Lemma present_false (values : gmap string string) (key : string) :
  bool_decide (is_Some (values !! key)) = false ->
  go_index values key = "".
Proof.
  unfold go_index. destruct (values !! key) as [v|]; [|reflexivity].
  rewrite bool_decide_eq_true_2 by eauto. discriminate.
Qed.

(** *** [TLSOptions] *)

(** [TLSOptions] as a function of the map [DecryptedValues] answers
    with. *)
Lemma TLSOptions_eq ds w :
  TLSOptions ds w =
  (Returned (TLSOptions_of ds (cached_values ds w)),
   if config_flag ds "tlsAuth" || config_flag ds "tlsAuthWithCACert"
   then snd (DecryptedValues ds w)
   else w).
Proof.
  unfold TLSOptions, TLSOptions_of, bind, ret.
  destruct (DecryptedValues_again ds w) as [Hv Hw].
  set (w1 := snd (DecryptedValues ds w)) in *.
  destruct (config_flag ds "tlsAuth") eqn:Hauth,
           (config_flag ds "tlsAuthWithCACert") eqn:Hca; cbn [orb].
  - rewrite (DecryptedValue_eq ds "tlsCACert" w). fold w1. cbv beta iota.
    rewrite (DecryptedValue_eq ds "tlsClientCert" w1), Hv, Hw.
    cbv beta iota.
    rewrite (DecryptedValue_eq ds "tlsClientKey" w1), Hv, Hw.
    f_equal. f_equal.
    repeat match goal with
    | |- context [exists_nonempty ?r] =>
        let E := fresh "E" in
        destruct (exists_nonempty r) eqn:E;
        [|apply exists_nonempty_false in E]
    end; cbn; unfold set_ClientKey, set_ClientCertificate, set_CACertificate;
      cbn; congruence.
  - rewrite (DecryptedValue_eq ds "tlsClientCert" w). fold w1. cbv beta iota.
    rewrite (DecryptedValue_eq ds "tlsClientKey" w1), Hv, Hw.
    f_equal. f_equal.
    repeat match goal with
    | |- context [exists_nonempty ?r] =>
        let E := fresh "E" in
        destruct (exists_nonempty r) eqn:E;
        [|apply exists_nonempty_false in E]
    end; cbn; unfold set_ClientKey, set_ClientCertificate;
      cbn; congruence.
  - rewrite (DecryptedValue_eq ds "tlsCACert" w). fold w1. cbv beta iota.
    f_equal. f_equal.
    repeat match goal with
    | |- context [exists_nonempty ?r] =>
        let E := fresh "E" in
        destruct (exists_nonempty r) eqn:E;
        [|apply exists_nonempty_false in E]
    end; cbn; unfold set_CACertificate; cbn; congruence.
  - reflexivity.
Qed.

(** X17.  [TLSOptions] never fails.  Without [tlsAuth] and
    [tlsAuthWithCACert] it reads no secret and leaves the state alone.
    Otherwise all the secrets it returns (CA, client certificate, client
    key, each only under its flag, empty when missing) come from one and
    the same decrypted map, the one a single [DecryptedValues] call gives,
    and the state afterwards is the state after that single call: the
    secret store is consulted at most once, and the transport cache and
    the arenas are not touched. *)
Theorem TLSOptions_reads_one_map ds w :
  TLSOptions ds w =
  (Returned (TLSOptions_of ds (cached_values ds w)),
   if config_flag ds "tlsAuth" || config_flag ds "tlsAuthWithCACert"
   then snd (DecryptedValues ds w)
   else w) /\
  (decryptCalls (snd (TLSOptions ds w)) = decryptCalls w \/
   decryptCalls (snd (TLSOptions ds w)) =
     SecureJsonData ds :: decryptCalls w) /\
  same_store w (snd (TLSOptions ds w)).
Proof.
  rewrite TLSOptions_eq. split; [reflexivity|]. cbn [snd].
  destruct (_ || _); [|split; [left; reflexivity|apply same_store_refl]].
  destruct (lookup_valid cd_updated (dsDecryptionCache w) ds) as [item|] eqn:E.
  - rewrite (DecryptedValues_hit _ _ _ E). cbn [snd].
    split; [left; reflexivity|apply same_store_refl].
  - rewrite (DecryptedValues_miss _ _ E). cbn [snd].
    split; [right; reflexivity|repeat split].
Qed.

(** *** [HTTPClientOptions] *)

Lemma TLSOptions_cached_values ds w :
  cached_values ds (snd (TLSOptions ds w)) = cached_values ds w.
Proof.
  rewrite TLSOptions_eq. cbn [snd].
  destruct (_ || _); [apply DecryptedValues_again|reflexivity].
Qed.

(** The first part always returns; it sets neither basic authentication
    nor signing, and leaves what [DecryptedValues] answers unchanged. *)
Lemma HTTPClientOptions_base_returns (ds : DataSourceExt) w :
  exists (opts : httpclient_Options) w1,
    HTTPClientOptions_base ds w = (Returned opts, w1) /\
    fst (getCustomHeaders ds w) = Returned (opt_Headers opts) /\
    TLS opts = TLSOptions_of ds (cached_values ds w) /\
    CustomOptions opts = MustMap <$> JsonData ds /\
    opt_BasicAuth opts = None /\ SigV4 opts = None /\
    opt_Timeout (Timeouts opts) = getTimeout ds /\
    Labels opts !! "datasource_name" = Some (Name ds) /\
    cached_values ds w1 = cached_values ds w.
Proof.
  unfold HTTPClientOptions_base, bind, ret.
  destruct (getCustomHeaders_cases ds w) as (h & w0 & E0 & Hw0 & _).
  rewrite E0. cbv beta iota.
  assert (Hc0 : cached_values ds w0 = cached_values ds w).
  { apply cached_values_frame. destruct Hw0 as [->| ->]; reflexivity. }
  pose proof (TLSOptions_cached_values ds w0) as Hc1.
  rewrite (TLSOptions_eq ds w0) in Hc1 |- *. cbn [snd] in Hc1.
  cbv beta iota. do 2 eexists. split; [reflexivity|].
  rewrite Hc0 in *.
  assert (Hlabel :
    (<["kind" := "datasource"]>
       (<["datasource_uid" := Uid ds]>
          (<["datasource_name" := Name ds]> (∅ : gmap string string))))
    !! "datasource_name" = Some (Name ds)).
  { rewrite !lookup_insert_ne by discriminate. apply lookup_insert_eq. }
  destruct (JsonData ds) as [j|]; unfold set_CustomOptions;
    cbn [opt_Headers TLS CustomOptions opt_BasicAuth SigV4 Timeouts
         opt_Timeout Labels fmap option_fmap option_map];
    repeat split; solve [exact Hc1 | exact Hlabel].
Qed.

(** The signing part. *)
Lemma HTTPClientOptions_sigV4_eq (ds : DataSourceExt)
    (opts : httpclient_Options) w :
  HTTPClientOptions_sigV4 ds opts w =
  if config_flag ds "sigV4Auth"
  then
    match awsServiceNamespace (Type_ ds), JsonData ds with
    | Returned service, Some j =>
        (Returned (set_SigV4 opts
                     (sigv4_Config_of service (cached_values ds w) j)),
         snd (DecryptedValues ds w))
    | Returned _, None => (Returned opts, w)
    | Panicked v, _ => (Panicked v, w)
    end
  else (Returned opts, w).
Proof.
  unfold HTTPClientOptions_sigV4, config_flag.
  destruct (JsonData ds) as [j|]; [|reflexivity].
  destruct (MustBool (Get j "sigV4Auth")); [|reflexivity].
  unfold bind, lift, ret.
  destruct (awsServiceNamespace (Type_ ds)) as [service|v]; [|reflexivity].
  destruct (DecryptedValues_again ds w) as [Hv Hw].
  rewrite (DecryptedValue_eq ds "sigV4AccessKey" w). cbv beta iota.
  rewrite (DecryptedValue_eq ds "sigV4SecretKey"), Hv, Hw. cbn [fst snd].
  f_equal. f_equal. f_equal. unfold sigv4_Config_of.
  destruct (bool_decide (is_Some (cached_values ds w !! "sigV4AccessKey")))
    eqn:Ea; [|apply present_false in Ea];
  destruct (bool_decide (is_Some (cached_values ds w !! "sigV4SecretKey")))
    eqn:Es; [|apply present_false in Es| |apply present_false in Es];
  unfold set_SecretKey, set_AccessKey; cbn; congruence.
Qed.

(** Without basic authentication the middle part does nothing. *)
Lemma HTTPClientOptions_basicAuth_none (ds : DataSourceExt)
    (opts : httpclient_Options) w :
  no_basic_auth ds ->
  HTTPClientOptions_basicAuth ds opts w = (Returned opts, w).
Proof.
  intros [Hb Hu]. unfold HTTPClientOptions_basicAuth. rewrite Hb, Hu.
  reflexivity.
Qed.

(** X18.  The options of a resource without basic authentication.
    [HTTPClientOptions] returns the headers of [getCustomHeaders], the
    TLS options read from the decrypted map [DecryptedValues] answers
    with, the resource's own timeout, no basic authentication, and, when
    [sigV4Auth] is set and the type recognized, the very signing
    configuration [sigV4Middleware] would give its signer (same service
    namespace, same keys); without [sigV4Auth] there is no signing
    configuration. *)
Theorem HTTPClientOptions_no_basic_auth_result (ds : DataSourceExt) w :
  no_basic_auth ds ->
  (config_flag ds "sigV4Auth" = true -> recognized (Type_ ds)) ->
  exists (opts : httpclient_Options) w',
    HTTPClientOptions ds w = (Returned opts, w') /\
    fst (getCustomHeaders ds w) = Returned (opt_Headers opts) /\
    TLS opts = TLSOptions_of ds (cached_values ds w) /\
    opt_Timeout (Timeouts opts) = getTimeout ds /\
    opt_BasicAuth opts = None /\
    (config_flag ds "sigV4Auth" = false -> SigV4 opts = None) /\
    (forall (j : Json) (service : string),
       config_flag ds "sigV4Auth" = true ->
       JsonData ds = Some j ->
       awsServiceNamespace (Type_ ds) = Returned service ->
       SigV4 opts = Some (sigv4_Config_of service (cached_values ds w) j)).
Proof.
  intros Hnb Hrec. unfold HTTPClientOptions, bind.
  destruct (HTTPClientOptions_base_returns ds w)
    as (opts & w1 & -> & Hh & Htls & _ & Hba & Hsig & Hto & _ & Hcv).
  rewrite (HTTPClientOptions_basicAuth_none ds opts w1 Hnb).
  rewrite HTTPClientOptions_sigV4_eq.
  destruct (config_flag ds "sigV4Auth") eqn:Hflag.
  - destruct (awsServiceNamespace_recognized _ (Hrec eq_refl))
      as (service & Hns & _).
    rewrite Hns. destruct (JsonData ds) as [j|] eqn:Hj.
    + do 2 eexists. split; [reflexivity|].
      unfold set_SigV4.
      cbn [opt_Headers TLS Timeouts opt_BasicAuth SigV4].
      split; [exact Hh|]. split; [exact Htls|]. split; [exact Hto|].
      split; [exact Hba|]. split; [intros [=]|].
      intros j' service' _ [= <-] [= <-]. rewrite Hcv. reflexivity.
    + unfold config_flag in Hflag. rewrite Hj in Hflag. discriminate.
  - do 2 eexists. split; [reflexivity|].
    split; [exact Hh|]. split; [exact Htls|]. split; [exact Hto|].
    split; [exact Hba|]. split; [intros _; exact Hsig|].
    intros j service [=].
Qed.

(** X19.  Signing without the process-wide switch.  For a resource whose
    configuration sets [sigV4Auth] and whose type is not recognized,
    [HTTPClientOptions] never returns: it panics, whatever
    [setting.SigV4AuthEnabled] says (the switch is not consulted on this
    path).  Without basic authentication the panic is the "Unsupported
    datasource" one of [awsServiceNamespace].  Hence [GetHttpTransport2],
    on a cache miss, panics as well, before any provider is called and
    without storing anything. *)
Theorem HTTPClientOptions_unrecognized_type_panics (ds : DataSourceExt) w :
  config_flag ds "sigV4Auth" = true ->
  ~ recognized (Type_ ds) ->
  (exists v w', HTTPClientOptions ds w = (Panicked v, w')) /\
  (no_basic_auth ds ->
   fst (HTTPClientOptions ds w) =
   Panicked (UnsupportedDatasource (Type_ ds))) /\
  (forall (provider : Provider) (w2 : World2),
     world w2 = w ->
     lookup_valid updated2 (ptc2 w2) ds = None ->
     exists v (w3 : World2),
       GetHttpTransport2 provider ds w2 = (Panicked v, w3) /\
       ptc2 w3 = ptc2 w2 /\ providerCalls w3 = providerCalls w2).
Proof.
  intros Hflag Hun.
  pose proof (awsServiceNamespace_unrecognized _ Hun) as Hns.
  assert (Hpanic : exists v w', HTTPClientOptions ds w = (Panicked v, w')).
  { unfold HTTPClientOptions, bind.
    destruct (HTTPClientOptions_base_returns ds w) as (opts & w1 & -> & _).
    destruct (HTTPClientOptions_basicAuth ds opts w1) as [[opts1|v] w2];
      [|eauto].
    rewrite HTTPClientOptions_sigV4_eq, Hflag, Hns. eauto. }
  split; [exact Hpanic|]. split.
  - intros Hnb. unfold HTTPClientOptions, bind.
    destruct (HTTPClientOptions_base_returns ds w) as (opts & w1 & -> & _).
    rewrite (HTTPClientOptions_basicAuth_none ds opts w1 Hnb).
    rewrite HTTPClientOptions_sigV4_eq, Hflag, Hns. reflexivity.
  - intros provider w2 <- Hlook. destruct Hpanic as (v & w' & Hp).
    exists v, (set_world w' w2). unfold GetHttpTransport2.
    rewrite Hlook, Hp. repeat split.
Qed.

(** X20.  Which user the basic authentication carries.  Whenever
    [HTTPClientOptions] returns: with [BasicAuth] set the options carry
    [BasicAuthUser]; with [BasicAuth] unset and a non-empty [User] they
    carry [User]; with neither they carry no basic authentication. *)
Theorem HTTPClientOptions_basic_auth_user (ds : DataSourceExt) w
    (opts : httpclient_Options) w' :
  HTTPClientOptions ds w = (Returned opts, w') ->
  (BasicAuth ds = true ->
   exists password, opt_BasicAuth opts =
     Some {| ba_User := BasicAuthUser ds; ba_Password := password |}) /\
  (BasicAuth ds = false -> User ds <> "" ->
   exists password, opt_BasicAuth opts =
     Some {| ba_User := User ds; ba_Password := password |}) /\
  (BasicAuth ds = false -> User ds = "" -> opt_BasicAuth opts = None).
Proof.
  unfold HTTPClientOptions, bind.
  destruct (HTTPClientOptions_base_returns ds w)
    as (opts0 & w1 & -> & _ & _ & _ & Hba & _).
  destruct (HTTPClientOptions_basicAuth ds opts0 w1) as [[opts1|v] w2] eqn:E1;
    [|intros [=]].
  intros Hsig.
  assert (Hkeep : opt_BasicAuth opts = opt_BasicAuth opts1).
  { rewrite HTTPClientOptions_sigV4_eq in Hsig.
    destruct (config_flag ds "sigV4Auth");
      [|injection Hsig as <- _; reflexivity].
    destruct (awsServiceNamespace (Type_ ds)); [|discriminate].
    destruct (JsonData ds); injection Hsig as <- _; reflexivity. }
  rewrite Hkeep. clear Hsig Hkeep.
  unfold HTTPClientOptions_basicAuth, bind, ret in E1.
  destruct (BasicAuth ds) eqn:Hb.
  - destruct (DecryptedBasicAuthPassword ds w1) as [[pw|v] w3]; [|discriminate].
    injection E1 as <- _. repeat split; try discriminate. eauto.
  - cbn [negb andb] in E1. destruct (decide (User ds = "")) as [Hu|Hu].
    + rewrite bool_decide_eq_true_2 in E1 by exact Hu. cbn [negb] in E1.
      injection E1 as <- _. repeat split; try discriminate; [contradiction|].
      intros _ _. exact Hba.
    + rewrite bool_decide_eq_false_2 in E1 by exact Hu. cbn [negb] in E1.
      destruct (DecryptedBasicAuthPassword ds w1) as [[pw|v] w3]; [|discriminate].
      injection E1 as <- _. repeat split; try discriminate; [eauto|].
      intros _ Hu'. contradiction.
Qed.

(** *** The second transport cache *)

Lemma GetHttpTransport2_hit (provider : Provider) (ds : DataSourceExt)
    (w2 : World2) (t : cachedRoundTripper2) :
  lookup_valid updated2 (ptc2 w2) ds = Some t ->
  GetHttpTransport2 provider ds w2 = (Returned (inl (roundTripper t)), w2).
Proof. intros H. unfold GetHttpTransport2. rewrite H. reflexivity. Qed.

(** The three ways a miss can end. *)
Lemma GetHttpTransport2_miss (provider : Provider) (ds : DataSourceExt)
    (w2 : World2) :
  lookup_valid updated2 (ptc2 w2) ds = None ->
  (exists v w1,
     HTTPClientOptions ds (world w2) = (Panicked v, w1) /\
     GetHttpTransport2 provider ds w2 = (Panicked v, set_world w1 w2)) \/
  (exists opts w1 r ps,
     HTTPClientOptions ds (world w2) = (Returned opts, w1) /\
     provider_GetTransport provider opts (providerState w2) = (r, ps) /\
     let w3 := {| world := w1; ptc2 := ptc2 w2; providerState := ps;
                  providerCalls := opts :: providerCalls w2 |} in
     match r with
     | inr e => GetHttpTransport2 provider ds w2 = (Returned (inr e), w3)
     | inl rt =>
         GetHttpTransport2 provider ds w2 =
         (Returned (inl rt),
          set_ptc2
            (<[Id ds := {| updated2 := Updated ds; roundTripper := rt |}]>
               (ptc2 w2)) w3)
     end).
Proof.
  intros Hmiss. unfold GetHttpTransport2. rewrite Hmiss.
  destruct (HTTPClientOptions ds (world w2)) as [[opts|v] w1]; [|left; eauto].
  right. unfold call_GetTransport. cbn [set_world providerState world ptc2
                                        providerCalls].
  destruct (provider_GetTransport provider opts (providerState w2))
    as [r ps] eqn:Ep.
  exists opts, w1, r, ps. split; [reflexivity|]. split; [exact Ep|].
  destruct r; reflexivity.
Qed.

(** X21.  Failures of [GetHttpTransport2] are not cached.  When the call
    yields no round tripper, the cache [ptc2] is as before.  A returned
    error is the one the provider gave for the options of the resource,
    unchanged, and that provider call is on record; a panic comes from
    building the options, and then the provider is not called at all. *)
Theorem GetHttpTransport2_failure_not_cached (provider : Provider)
    (ds : DataSourceExt) (w2 : World2) :
  (forall rt, fst (GetHttpTransport2 provider ds w2) <> Returned (inl rt)) ->
  let w3 := snd (GetHttpTransport2 provider ds w2) in
  ptc2 w3 = ptc2 w2 /\
  (forall e, fst (GetHttpTransport2 provider ds w2) = Returned (inr e) ->
     exists opts,
       fst (HTTPClientOptions ds (world w2)) = Returned opts /\
       fst (provider_GetTransport provider opts (providerState w2)) = inr e /\
       providerCalls w3 = opts :: providerCalls w2) /\
  (forall v, fst (GetHttpTransport2 provider ds w2) = Panicked v ->
     fst (HTTPClientOptions ds (world w2)) = Panicked v /\
     providerCalls w3 = providerCalls w2 /\
     providerState w3 = providerState w2).
Proof.
  intros Hfail. cbn zeta.
  destruct (lookup_valid updated2 (ptc2 w2) ds) as [t|] eqn:Hlook.
  { exfalso. apply (Hfail (roundTripper t)).
    rewrite (GetHttpTransport2_hit _ _ _ _ Hlook). reflexivity. }
  destruct (GetHttpTransport2_miss provider ds w2 Hlook)
    as [(v & w1 & Ho & Hcall)|(opts & w1 & r & ps & Ho & Hp & Hcall)].
  - rewrite Hcall, Ho. cbn [fst snd].
    split; [reflexivity|]. split; [intros e [=]|].
    intros v' [= <-]. repeat split.
  - cbn zeta in Hcall. destruct r as [rt|e].
    + exfalso. apply (Hfail rt). rewrite Hcall. reflexivity.
    + rewrite Hcall, Ho. cbn [fst snd].
      split; [reflexivity|]. split; [|intros v [=]].
      intros e' [= <-]. exists opts. rewrite Hp. repeat split.
Qed.

(** X22.  [ptc2] is keyed by id and timestamp only.  After
    [GetHttpTransport2] has returned a round tripper, every call for a
    resource with the same id and [Updated], even one made with another
    provider, returns that same round tripper and changes nothing:
    options are not built again and no provider is called. *)
Theorem GetHttpTransport2_then_hit (provider provider' : Provider)
    (ds ds' : DataSourceExt) (w2 w3 : World2) (rt : RoundTripper2) :
  GetHttpTransport2 provider ds w2 = (Returned (inl rt), w3) ->
  Id ds' = Id ds ->
  Updated ds' = Updated ds ->
  GetHttpTransport2 provider' ds' w3 = (Returned (inl rt), w3).
Proof.
  intros Hcall Hid Hupd.
  assert (Hentry : exists t, lookup_valid updated2 (ptc2 w3) ds' = Some t /\
                             roundTripper t = rt).
  { destruct (lookup_valid updated2 (ptc2 w2) ds) as [t|] eqn:Hlook.
    - rewrite (GetHttpTransport2_hit _ _ _ _ Hlook) in Hcall.
      injection Hcall as <- <-. exists t. split; [|reflexivity].
      apply lookup_valid_Some. apply lookup_valid_Some in Hlook.
      rewrite Hid, Hupd. exact Hlook.
    - destruct (GetHttpTransport2_miss provider ds w2 Hlook)
        as [(v & w1 & _ & Hc)|(opts & w1 & r & ps & _ & _ & Hc)].
      + rewrite Hc in Hcall. discriminate.
      + cbn zeta in Hc. destruct r as [rt'|e]; rewrite Hc in Hcall;
          [|discriminate].
        injection Hcall as <- <-.
        exists {| updated2 := Updated ds; roundTripper := rt' |}.
        split; [|reflexivity].
        apply lookup_valid_Some. cbn. rewrite Hid, Hupd, lookup_insert_eq.
        split; reflexivity. }
  destruct Hentry as (t & Ht & <-).
  exact (GetHttpTransport2_hit provider' ds' w3 t Ht).
Qed.

End Further2.

(** ** The further theorems at concrete inputs *)

Section Instances2.

Import Example Example2.

(** A configured timeout of 45 seconds against a default of 30; a
    timeout of 2^63 does not fit and gives the default. *)
Lemma getTimeout_override_or_default_witness :
  getTimeout ds_timeout = 45000000000 /\
  getTimeout (mkDS ext_on 7 "prometheus"
                [("timeout", JNumber 9223372036854775808)] sec0 1) =
    30000000000.
Proof.
  split.
  - destruct (getTimeout_override_or_default (ext := ext_on) ds_timeout)
      as [H _].
    destruct (H _ 45 eq_refl) as [_ H45].
    + vm_compute. reflexivity.
    + discriminate.
    + lia.
    + apply H45. lia.
  - destruct (getTimeout_override_or_default (ext := ext_on)
                (mkDS ext_on 7 "prometheus"
                   [("timeout", JNumber 9223372036854775808)] sec0 1))
      as [_ H].
    destruct H as [_ Hdef].
    + right. eexists. split; [reflexivity|].
      intros n Hn. vm_compute in Hn. injection Hn as <-. right. lia.
    + apply Hdef. vm_compute. split; discriminate.
Defined.

(** A client key that does not belong to the certificate. *)
Lemma GetTLSConfig_key_pair_error_witness :
  fst (GetTLSConfig (ds_mtls "wrong key") initWorld) =
  Returned (inr (errors_New "tls: private key does not match public key")).
Proof.
  apply (GetTLSConfig_key_pair_error (ext := ext_on)).
  - vm_compute. reflexivity.
  - intros _ _. vm_compute. discriminate.
  - vm_compute. reflexivity.
Defined.

(** CA pinning and mutual TLS, with matching key. *)
Lemma GetTLSConfig_success_witness :
  exists cfg : tls_Config,
    fst (GetTLSConfig (ds_mtls "key of CERT") initWorld) = Returned (inl cfg) /\
    RootCAs cfg = Some ["-----BEGIN CERTIFICATE-----CA"] /\
    Certificates cfg = ["CERT"] /\ ServerName cfg = "db.internal".
Proof.
  destruct (GetTLSConfig_success (ext := ext_on)
              (ds_mtls "key of CERT") initWorld)
    as (cfg & Hcfg & _ & Hname & Hroot & Hcert).
  - intros _ _. vm_compute. discriminate.
  - intros _. eexists. vm_compute. reflexivity.
  - exists cfg. split; [exact Hcfg|].
    rewrite Hroot, Hcert, Hname. vm_compute. auto.
Defined.

(** The secrets of the resource changed, its timestamp did not: the old
    map is still served. *)
Lemma DecryptedValues_then_hit_witness :
  exists values,
    fst (DecryptedValues (ds_ca "first" 1) initWorld) = Returned values /\
    DecryptedValues (ds_ca "rotated" 1)
      (snd (DecryptedValues (ds_ca "first" 1) initWorld)) =
    (Returned values, snd (DecryptedValues (ds_ca "first" 1) initWorld)).
Proof.
  apply (DecryptedValues_then_hit (ext := ext_on)); reflexivity.
Defined.

(** A new timestamp for a cached resource. *)
Lemma DecryptedValues_miss_replaces_witness :
  fst (DecryptedValues (ds_ca "rotated" 2)
         (snd (DecryptedValues (ds_ca "first" 1) initWorld))) =
  Returned ({[ "tlsCACert" := "rotated" ]} : gmap string string).
Proof.
  destruct (DecryptedValues_miss_replaces (ext := ext_on)
              (ds_ca "rotated" 2)
              (snd (DecryptedValues (ds_ca "first" 1) initWorld)))
    as (H & _).
  - intros item Hitem. vm_compute in Hitem. injection Hitem as <-.
    vm_compute. discriminate.
  - rewrite H. vm_compute. reflexivity.
Defined.

(** The same name at indices 1 and 2: the second value is kept. *)
Lemma getCustomHeaders_last_index_wins_witness :
  exists h, fst (getCustomHeaders ds_dup initWorld) = Returned h /\
            h !! "X-Token" = Some "second".
Proof.
  apply (getCustomHeaders_last_index_wins (ext := ext_on)
           ds_dup initWorld _ 3%nat 2%nat "second" eq_refl).
  - split; [lia|]. split; [vm_compute; reflexivity|].
    intros i Hi. assert (i = 1 \/ i = 2)%nat as [-> | ->] by lia;
      vm_compute; discriminate.
  - lia.
  - vm_compute. reflexivity.
  - intros m Hm. lia.
Defined.

(** The one header of the gap example comes from index 1. *)
Lemma getCustomHeaders_provenance_witness :
  "X-One" <> "" /\
  exists (j : Json) (n : nat),
    JsonData ds_gap = Some j /\ (1 <= n)%nat /\
    (forall i, (1 <= i <= n)%nat -> headerName j i <> "") /\
    headerName j n = "X-One" /\
    Decrypt (SecureJsonData ds_gap) !! headerValueKey n = Some "one".
Proof.
  apply (getCustomHeaders_provenance (ext := ext_on) ds_gap initWorld
           ({[ "X-One" := "one" ]} : gmap string string)).
  - vm_compute. reflexivity.
  - vm_compute. reflexivity.
Defined.

(** Calls for id 8 and a clear leave the entry of id 7 alone. *)
Lemma run_other_ids_witness :
  ptc (run [Call_GetHttpTransport ds_other; Call_ClearDSDecryptionCache;
            Call_GetHttpClient ds_other] w_cached) !! 7 =
  ptc w_cached !! 7.
Proof.
  apply (run_other_ids (ext := ext_on)).
  repeat constructor; vm_compute; discriminate.
Defined.

Lemma w_two_reachable : reachable w_two.
Proof. eexists. reflexivity. Qed.

(** Ids 7 and 8 hold handlers 0 and 1. *)
Lemma reachable_handlers_distinct_witness :
  ptc w_two !! 7 = Some {| updated := 1; handler := 0%nat |} /\
  ptc w_two !! 8 = Some {| updated := 1; handler := 1%nat |} /\
  handler {| updated := 1; handler := 0%nat |} <>
  handler {| updated := 1; handler := 1%nat |}.
Proof.
  assert (H7 : ptc w_two !! 7 = Some {| updated := 1; handler := 0%nat |})
    by (vm_compute; reflexivity).
  assert (H8 : ptc w_two !! 8 = Some {| updated := 1; handler := 1%nat |})
    by (vm_compute; reflexivity).
  split; [exact H7|]. split; [exact H8|].
  apply (reachable_handlers_distinct (ext := ext_on) w_two 7 8 _ _
           w_two_reachable H7 H8).
  discriminate.
Defined.

(** Handler 0 survives a clear of the decryption cache. *)
Lemma ClearDSDecryptionCache_keeps_transports_witness :
  GetHttpTransport (ds_plain ext_on sec0 1)
    (snd (ClearDSDecryptionCache w_cached)) =
  (Returned (inl 0%nat), snd (ClearDSDecryptionCache w_cached)).
Proof.
  apply (ClearDSDecryptionCache_keeps_transports (ext := ext_on)
           (ds_plain ext_on sec0 1) w_cached
           {| updated := 1; handler := 0%nat |}).
  - vm_compute. reflexivity.
  - reflexivity.
Defined.



(** Two configured headers, visited in either order, on a request that
    already carries one of them. *)
Lemma RoundTrip_headers_overwrite_witness :
  RoundTrip_headers (ext2 := test_ext2) [("X-B", "b"); ("X-A", "a")]
    ({[ "X-A" := ["old"; "older"] ]} : gmap string (list string)) !! "X-A" =
  Some ["a"].
Proof.
  destruct (RoundTrip_headers_overwrite (ext2 := test_ext2)
              (list_to_map [("X-A", "a"); ("X-B", "b")] : gmap string string)
              [("X-B", "b"); ("X-A", "a")]
              ({[ "X-A" := ["old"; "older"] ]} : gmap string (list string)))
    as [H _].
  - rewrite map_to_list_to_map.
    + apply Permutation_swap.
    + cbn [fmap list_fmap fst]. apply NoDup_cons.
      split; [|apply NoDup_singleton].
      intros H. apply list_elem_of_singleton in H. discriminate H.
  - apply (H "X-A" "a").
    + vm_compute. reflexivity.
    + intros k' v' _ Hc. exact Hc.
Defined.

(** The Elasticsearch resource, without basic authentication. *)
Lemma HTTPClientOptions_no_basic_auth_result_witness :
  exists (opts : httpclient_Options),
    fst (HTTPClientOptions (ext2 := test_ext2)
           (mkExt (ds_es_key "AK") "" false "") initWorld) = Returned opts /\
    opt_BasicAuth opts = None /\
    (AccessKey <$> SigV4 opts) = Some "AK" /\
    (Service <$> SigV4 opts) = Some "es".
Proof.
  destruct (HTTPClientOptions_no_basic_auth_result (ext2 := test_ext2)
              (mkExt (ds_es_key "AK") "" false "") initWorld)
    as (opts & w' & Hcall & _ & _ & _ & Hba & _ & Hsig).
  - split; reflexivity.
  - intros _. left. reflexivity.
  - exists opts. rewrite Hcall. split; [reflexivity|]. split; [exact Hba|].
    rewrite (Hsig _ "es" eq_refl eq_refl eq_refl).
    vm_compute. auto.
Defined.

(** The unrecognized type with [sigV4Auth], process-wide signing off. *)
Lemma HTTPClientOptions_unrecognized_type_panics_witness :
  fst (HTTPClientOptions (ext2 :=
         {| DecryptedBasicAuthPassword := fun _ : @DataSourceExt ext_off => ret "";
            RoundTripper2 := unit; ProviderState := unit;
            CanonicalMIMEHeaderKey := fun key => key |})
         {| ds_core := ds_unknown ext_off sec0; Uid := ""; User := "";
            BasicAuth := false; BasicAuthUser := "" |} initWorld) =
  Panicked (UnsupportedDatasource "unknown-plugin").
Proof.
  eapply (HTTPClientOptions_unrecognized_type_panics (ext := ext_off)).
  - vm_compute. reflexivity.
  - vm_compute. intros [H|[H|H]]; discriminate H.
  - split; reflexivity.
Defined.

(** [BasicAuth] set: the user is [BasicAuthUser], not [User]. *)
Lemma HTTPClientOptions_basic_auth_user_witness :
  exists (opts : httpclient_Options) (password : string),
    fst (HTTPClientOptions (ext2 := test_ext2)
           (mkExt (ds_plain ext_on sec0 1) "admin" true "proxy") initWorld) =
      Returned opts /\
    opt_BasicAuth opts =
      Some {| ba_User := "proxy"; ba_Password := password |}.
Proof.
  assert (Ho : exists opts,
            fst (HTTPClientOptions (ext2 := test_ext2)
                   (mkExt (ds_plain ext_on sec0 1) "admin" true "proxy")
                   initWorld) = Returned opts)
    by (vm_compute; eexists; reflexivity).
  destruct Ho as (opts & Ho).
  destruct (HTTPClientOptions_basic_auth_user (ext2 := test_ext2)
              (mkExt (ds_plain ext_on sec0 1) "admin" true "proxy")
              initWorld opts
              (snd (HTTPClientOptions (ext2 := test_ext2)
                      (mkExt (ds_plain ext_on sec0 1) "admin" true "proxy")
                      initWorld)))
    as (H & _).
  - rewrite <- Ho. apply surjective_pairing.
  - destruct (H eq_refl) as (password & Hpw).
    exists opts, password. split; [exact Ho|exact Hpw].
Defined.

(** The concrete provider refuses the insecure resource. *)
Lemma GetHttpTransport2_failure_not_cached_witness :
  fst (GetHttpTransport2 test_provider
         (mkExt ds_insecure "" false "") initWorld2) =
    Returned (inr (errors_New "insecure options refused")) /\
  ptc2 (snd (GetHttpTransport2 test_provider
               (mkExt ds_insecure "" false "") initWorld2)) = ∅.
Proof.
  split; [vm_compute; reflexivity|].
  apply (GetHttpTransport2_failure_not_cached (ext2 := test_ext2)
           test_provider (mkExt ds_insecure "" false "") initWorld2).
  vm_compute. intros rt H. discriminate H.
Defined.

(** Built by the concrete provider, then asked of the failing one. *)
Lemma GetHttpTransport2_then_hit_witness :
  fst (GetHttpTransport2 failing_provider
         (mkExt (ds_plain ext_on sec0 1) "someone" false "")
         (snd (GetHttpTransport2 test_provider
                 (mkExt (ds_plain ext_on sec0 1) "" false "") initWorld2))) =
  fst (GetHttpTransport2 test_provider
         (mkExt (ds_plain ext_on sec0 1) "" false "") initWorld2).
Proof.
  assert (Ho : exists rt,
            fst (GetHttpTransport2 test_provider
                   (mkExt (ds_plain ext_on sec0 1) "" false "") initWorld2) =
            Returned (inl rt))
    by (vm_compute; eexists; reflexivity).
  destruct Ho as (rt & Ho). rewrite Ho.
  rewrite (GetHttpTransport2_then_hit (ext2 := test_ext2)
             test_provider failing_provider
             (mkExt (ds_plain ext_on sec0 1) "" false "")
             (mkExt (ds_plain ext_on sec0 1) "someone" false "")
             initWorld2 _ rt);
    [reflexivity| |reflexivity|reflexivity].
  rewrite <- Ho. apply surjective_pairing.
Defined.

End Instances2.
